(** * The timed test session of [TCSStyleTestInterface]

    A shallow embedding of the session component
    (src/components/Test, [TCSStyleTestInterface]): its state hooks, its
    event handlers, its effects (timer, visibility monitor, checkpoint
    save and restore, violation auto-submit) and the buttons its render
    function offers in each view.

    Conventions.
    - JS objects used as dictionaries are [gmap string _]; [o[k]] in a
      boolean position is the truthiness of the lookup. The maps hold the
      own keys. For a key that names a member of [Object.prototype] and
      is not an own key, [o[k]] is the inherited member in the code;
      [inheritedKey] tells these keys, and a property that depends on
      reading a missing key is stated for the other keys or follows the
      inherited member explicitly.
    - A handler reads the values of the render it was created in and
      writes with [setX]. Handlers attached to buttons are re-created on
      every render, so they read the current state. The interval callback
      is created by an effect whose dependency list is [showInstructions]
      only: it keeps calling the [handleAutoSubmit] of the render in
      which the test was started, which is kept in [timerClosure].
    - Calls that leave the component ([onSubmit], [onExit], [alert],
      [console], [localStorage]) are collected in a list of [Effect]s;
      the checkpoint stored under this test's key is the [storage] field.
    - [onSubmit] returns a promise: the call is an effect of the step that
      makes it and its outcome is a later [SubmitSettled] event.
    - Fullscreen handling is outside the model. *)

From stdpp Require Import gmap strings list fin_maps.
From Stdlib Require Import ZArith Lia QArith Lqa Ascii DecimalString.

Open Scope Z_scope.
Open Scope nat_scope.

(** ** Test definition (props) *)

Record Question := {
  q_id : string;
  questionText : string;
  marks : nat
}.

Record TestSection := {
  sec_id : string;
  sectionName : string;
  questions : list Question
}.

(** [codingQuestions] is [any[]]; the component reads [_id] and
    [questionId] of its elements. *)
Record CodingQuestion := {
  cq_id : option string;
  cq_questionId : option string
}.

Record Test := {
  t_id : string;
  hasSections : bool;
  sections : option (list TestSection);
  duration : nat;
  t_questions : list Question;
  hasCodingSection : bool;
  codingQuestions : option (list CodingQuestion)
}.

Record CodingSubmission := {
  submissionId : string;
  score : nat
}.

(** ** JS truthiness and [||] *)

Definition truthy_string (o : option string) : bool :=
  match o with
  | Some s => negb (String.eqb s EmptyString)
  | None => false
  end.

Definition truthy_bool (o : option bool) : bool :=
  match o with Some b => b | None => false end.

(** [a || b] on possibly missing strings; [None] is [undefined]/[null]. *)
Definition or_string (a b : option string) : option string :=
  if truthy_string a then a else b.

(** [cq._id || cq.questionId] *)
Definition codingId (cq : CodingQuestion) : option string :=
  or_string (cq_id cq) (cq_questionId cq).

(** ** Plain objects as dictionaries *)

(** The names of the members of [Object.prototype], which every plain
    object inherits: [o[k]] for one of them that is not an own key of
    [o] is the inherited member (a function, or the prototype itself for
    [__proto__]), which is truthy. *)
Definition objectPrototypeKeys : list string :=
  ["constructor"; "hasOwnProperty"; "isPrototypeOf"; "propertyIsEnumerable";
   "toLocaleString"; "toString"; "valueOf"; "__proto__";
   "__defineGetter__"; "__defineSetter__"; "__lookupGetter__"; "__lookupSetter__"].

Definition inheritedKey (k : string) : bool :=
  existsb (String.eqb k) objectPrototypeKeys.

(** ** Component state: one field per [useState] *)

Record State := {
  showInstructions : bool;
  agreedToTerms : bool;
  currentSectionIndex : nat;
  currentQuestionIndex : nat;
  answers : gmap string string;
  markedForReview : gmap string bool;
  visitedQuestions : gmap string bool;
  timeLeft : nat;
  submitting : bool;
  showSectionComplete : bool;
  showSubmitConfirm : bool;
  showCodingSection : bool;
  mcqCompleted : bool;
  selectedCodingQuestionId : option string;
  codingSubmissions : list CodingSubmission;
  violations : nat
}.

Definition setShowInstructions (v : bool) (s : State) : State :=
  let '(Build_State _ a2 a3 a4 a5 a6 a7 a8 a9 a10 a11 a12 a13 a14 a15 a16) := s in
  Build_State v a2 a3 a4 a5 a6 a7 a8 a9 a10 a11 a12 a13 a14 a15 a16.
Definition setAgreedToTerms (v : bool) (s : State) : State :=
  let '(Build_State a1 _ a3 a4 a5 a6 a7 a8 a9 a10 a11 a12 a13 a14 a15 a16) := s in
  Build_State a1 v a3 a4 a5 a6 a7 a8 a9 a10 a11 a12 a13 a14 a15 a16.
Definition setCurrentSectionIndex (v : nat) (s : State) : State :=
  let '(Build_State a1 a2 _ a4 a5 a6 a7 a8 a9 a10 a11 a12 a13 a14 a15 a16) := s in
  Build_State a1 a2 v a4 a5 a6 a7 a8 a9 a10 a11 a12 a13 a14 a15 a16.
Definition setCurrentQuestionIndex (v : nat) (s : State) : State :=
  let '(Build_State a1 a2 a3 _ a5 a6 a7 a8 a9 a10 a11 a12 a13 a14 a15 a16) := s in
  Build_State a1 a2 a3 v a5 a6 a7 a8 a9 a10 a11 a12 a13 a14 a15 a16.
Definition setAnswers (f : gmap string string -> gmap string string) (s : State) : State :=
  let '(Build_State a1 a2 a3 a4 a5 a6 a7 a8 a9 a10 a11 a12 a13 a14 a15 a16) := s in
  Build_State a1 a2 a3 a4 (f a5) a6 a7 a8 a9 a10 a11 a12 a13 a14 a15 a16.
Definition setMarkedForReview (f : gmap string bool -> gmap string bool) (s : State) : State :=
  let '(Build_State a1 a2 a3 a4 a5 a6 a7 a8 a9 a10 a11 a12 a13 a14 a15 a16) := s in
  Build_State a1 a2 a3 a4 a5 (f a6) a7 a8 a9 a10 a11 a12 a13 a14 a15 a16.
Definition setVisitedQuestions (f : gmap string bool -> gmap string bool) (s : State) : State :=
  let '(Build_State a1 a2 a3 a4 a5 a6 a7 a8 a9 a10 a11 a12 a13 a14 a15 a16) := s in
  Build_State a1 a2 a3 a4 a5 a6 (f a7) a8 a9 a10 a11 a12 a13 a14 a15 a16.
Definition setTimeLeft (f : nat -> nat) (s : State) : State :=
  let '(Build_State a1 a2 a3 a4 a5 a6 a7 a8 a9 a10 a11 a12 a13 a14 a15 a16) := s in
  Build_State a1 a2 a3 a4 a5 a6 a7 (f a8) a9 a10 a11 a12 a13 a14 a15 a16.
Definition setSubmitting (v : bool) (s : State) : State :=
  let '(Build_State a1 a2 a3 a4 a5 a6 a7 a8 _ a10 a11 a12 a13 a14 a15 a16) := s in
  Build_State a1 a2 a3 a4 a5 a6 a7 a8 v a10 a11 a12 a13 a14 a15 a16.
Definition setShowSectionComplete (v : bool) (s : State) : State :=
  let '(Build_State a1 a2 a3 a4 a5 a6 a7 a8 a9 _ a11 a12 a13 a14 a15 a16) := s in
  Build_State a1 a2 a3 a4 a5 a6 a7 a8 a9 v a11 a12 a13 a14 a15 a16.
Definition setShowSubmitConfirm (v : bool) (s : State) : State :=
  let '(Build_State a1 a2 a3 a4 a5 a6 a7 a8 a9 a10 _ a12 a13 a14 a15 a16) := s in
  Build_State a1 a2 a3 a4 a5 a6 a7 a8 a9 a10 v a12 a13 a14 a15 a16.
Definition setShowCodingSection (v : bool) (s : State) : State :=
  let '(Build_State a1 a2 a3 a4 a5 a6 a7 a8 a9 a10 a11 _ a13 a14 a15 a16) := s in
  Build_State a1 a2 a3 a4 a5 a6 a7 a8 a9 a10 a11 v a13 a14 a15 a16.
Definition setMcqCompleted (v : bool) (s : State) : State :=
  let '(Build_State a1 a2 a3 a4 a5 a6 a7 a8 a9 a10 a11 a12 _ a14 a15 a16) := s in
  Build_State a1 a2 a3 a4 a5 a6 a7 a8 a9 a10 a11 a12 v a14 a15 a16.
Definition setSelectedCodingQuestionId (v : option string) (s : State) : State :=
  let '(Build_State a1 a2 a3 a4 a5 a6 a7 a8 a9 a10 a11 a12 a13 _ a15 a16) := s in
  Build_State a1 a2 a3 a4 a5 a6 a7 a8 a9 a10 a11 a12 a13 v a15 a16.
Definition setCodingSubmissions (f : list CodingSubmission -> list CodingSubmission) (s : State) : State :=
  let '(Build_State a1 a2 a3 a4 a5 a6 a7 a8 a9 a10 a11 a12 a13 a14 a15 a16) := s in
  Build_State a1 a2 a3 a4 a5 a6 a7 a8 a9 a10 a11 a12 a13 a14 (f a15) a16.
Definition setViolations (f : nat -> nat) (s : State) : State :=
  let '(Build_State a1 a2 a3 a4 a5 a6 a7 a8 a9 a10 a11 a12 a13 a14 a15 a16) := s in
  Build_State a1 a2 a3 a4 a5 a6 a7 a8 a9 a10 a11 a12 a13 a14 a15 (f a16).

(** The initial values given to [useState]. *)
Definition initialState (test : Test) : State := {|
  showInstructions := true;
  agreedToTerms := false;
  currentSectionIndex := 0;
  currentQuestionIndex := 0;
  answers := ∅;
  markedForReview := ∅;
  visitedQuestions := ∅;
  timeLeft := duration test * 60;
  submitting := false;
  showSectionComplete := false;
  showSubmitConfirm := false;
  showCodingSection := false;
  mcqCompleted := false;
  selectedCodingQuestionId := None;
  codingSubmissions := [];
  violations := 0
|}.

(** ** Checkpoint record

    What [JSON.parse] gives back from [localStorage]; every field may be
    missing. *)
Record TestProgress := {
  p_answers : option (gmap string string);
  p_markedForReview : option (gmap string bool);
  p_visitedQuestions : option (gmap string bool);
  p_currentSectionIndex : option nat;
  p_currentQuestionIndex : option nat;
  p_violations : option nat;
  p_timeLeft : option nat;
  p_mcqCompleted : option bool;
  p_selectedCodingQuestionId : option string;
  p_codingSubmissions : option (list CodingSubmission);
  p_testStartTime : option Z
}.

(** ** Calls that leave the component *)

Inductive LogMsg :=
  | LogViolationsTransition      (* autoSubmitTest, coding section present *)
  | LogViolationsAutoSubmit      (* autoSubmitTest, no coding section *)
  | LogCodingOnly                (* handleStartTest *)
  | LogEndOfSections             (* handleNextSection *)
  | LogMovingToCoding
  | LogNoCodingSection
  | LogTimeExpiredTransition     (* handleAutoSubmit *)
  | LogCodingSubmitClicked       (* coding view, Submit Test *)
  | LogTopButtonClicked          (* MCQ view, header button *)
  | LogTransitioningToCoding
  | LogNoCodingShowConfirm.

Inductive ErrMsg :=
  | ErrAutoSubmitting            (* autoSubmitTest catch *)
  | ErrSubmit.                   (* handleSubmit catch *)

Inductive AlertMsg :=
  | AlertAcceptTerms
  | AlertViolationLimit
  | AlertViolationWarning (n : nat)
  | AlertSubmitFailed.

Record SubmissionAnswer := {
  questionId : string;
  selectedAnswer : string;
  sa_timeSpent : option nat
}.

Inductive Effect :=
  | ConsoleLog (m : LogMsg)
  | ConsoleError (m : ErrMsg)
  | Alert (m : AlertMsg)
  | OnSubmit (ans : list SubmissionAnswer) (timeSpent : Z) (subs : list CodingSubmission)
  | OnExit
  | LocalStorageSetItem (p : TestProgress)
  | LocalStorageRemoveItem.

(** Which asynchronous function is waiting for [onSubmit] to settle. *)
Inductive Caller := ByHandleSubmit | ByAutoSubmitTest.

Global Instance Caller_eq_dec : EqDecision Caller.
Proof. solve_decision. Defined.

(** ** The mounted component *)

Record Session := {
  st : State;
  timerClosure : option State;
  storage : option TestProgress;
  pending : list Caller
}.

Definition withState (f : State -> State) (w : Session) : Session :=
  {| st := f (st w); timerClosure := timerClosure w;
     storage := storage w; pending := pending w |}.

(** The four option labels of a question ([Object.entries(options)]). *)
Inductive OptionKey := OptA | OptB | OptC | OptD.

Definition optionLabel (k : OptionKey) : string :=
  match k with
  | OptA => "A" | OptB => "B" | OptC => "C" | OptD => "D"
  end.

(** ** Events the mounted component reacts to *)

Inductive Event :=
  | ChangeAgreed (checked : bool)      (* terms checkbox *)
  | ClickStartTest                     (* handleStartTest *)
  | ClickCancel                        (* instructions view, onExit *)
  | Tick                               (* the setInterval callback *)
  | VisibilityHidden                   (* visibilitychange, document.hidden *)
  | BeforeUnload
  | ChangeOption (k : OptionKey)       (* radio button of the current question *)
  | ClickPrevious
  | ClickMarkForReviewAndNext
  | ClickClearResponse
  | ClickSaveAndNext
  | ClickPalette (index : nat)
  | ClickHeaderButton                  (* MCQ view: Next Section (Coding) / Submit Test *)
  | ClickReviewAnswers                 (* section-complete dialog *)
  | ClickNextSection
  | ClickCancelSubmit                  (* submit dialog *)
  | ClickSubmitFinal
  | ClickCodingSubmit                  (* coding view: Submit Test *)
  | ClickCodingQuestion (index : nat)
  | CodingSubmitted (id : string) (points : nat)   (* CodingInterface onSubmit *)
  | SubmitSettled (c : Caller) (ok : bool).        (* the onSubmit promise *)

(** What the render function returns. *)
Inductive View :=
  | ViewInstructions
  | ViewCoding
  | ViewLoading
  | ViewMcq (currentQuestion : Question).

Section Component.

Variable test : Test.
(** [startTime.getTime()], in milliseconds. *)
Variable startTime : Z.

(** [test.hasCodingSection && test.codingQuestions &&
    test.codingQuestions.length > 0] *)
Definition codingAvailable : bool :=
  hasCodingSection test &&
  match codingQuestions test with
  | Some (_ :: _) => true
  | _ => false
  end.

(** [test.codingQuestions[0]] *)
Definition firstCoding : option CodingQuestion :=
  match codingQuestions test with
  | Some cqs => head cqs
  | None => None
  end.

(** [if (firstCoding) setSelectedCodingQuestionId(firstCoding._id ||
    firstCoding.questionId)] *)
Definition selectFirstCoding (s : State) : State :=
  match firstCoding with
  | Some cq => setSelectedCodingQuestionId (codingId cq) s
  | None => s
  end.

Definition getCurrentSection (s : State) : option TestSection :=
  if hasSections test then
    match sections test with
    | Some secs => secs !! currentSectionIndex s
    | None => None
    end
  else None.

Definition getCurrentSectionQuestions (s : State) : list Question :=
  match getCurrentSection s with
  | Some sec => questions sec
  | None => t_questions test
  end.

Definition getCurrentQuestion (s : State) : option Question :=
  getCurrentSectionQuestions s !! currentQuestionIndex s.

(** *** Ledger handlers *)

Definition handleAnswerSelect (qid answer : string) (s : State) : State :=
  setAnswers (fun prev => <[qid := answer]> prev) s.

Definition handleClearResponse (s : State) : State :=
  match getCurrentQuestion s with
  | None => s
  | Some currentQ =>
      setMarkedForReview (fun prev => delete (q_id currentQ) prev)
        (setAnswers (fun prev => delete (q_id currentQ) prev) s)
  end.

Definition handleMarkForReview (s : State) : State :=
  match getCurrentQuestion s with
  | None => s
  | Some currentQ =>
      setMarkedForReview
        (fun prev => <[q_id currentQ := negb (truthy_bool (prev !! q_id currentQ))]> prev) s
  end.

(** [currentQuestionIndex < questions.length - 1] is compared over the
    integers: it is [currentQuestionIndex + 1 < questions.length]. *)
Definition handleSaveAndNext (s : State) : State :=
  let qs := getCurrentSectionQuestions s in
  let nextIndex := currentQuestionIndex s + 1 in
  if nextIndex <? length qs then
    match qs !! nextIndex with
    | Some q =>
        setVisitedQuestions (fun prev => <[q_id q := true]> prev)
          (setCurrentQuestionIndex nextIndex s)
    | None => setCurrentQuestionIndex nextIndex s
    end
  else setShowSectionComplete true s.

(** Both calls read the same render; the first writes
    [markedForReview] only, which the second does not read. *)
Definition handleMarkForReviewAndNext (s : State) : State :=
  handleSaveAndNext (handleMarkForReview s).

(** Out of range, [questions[index]._id] throws after the index has
    been set. *)
Definition handleNavigateToQuestion (index : nat) (s : State) : State :=
  match getCurrentSectionQuestions s !! index with
  | Some q =>
      setVisitedQuestions (fun prev => <[q_id q := true]> prev)
        (setCurrentQuestionIndex index s)
  | None => setCurrentQuestionIndex index s
  end.

Definition handleNextSection (s : State) : State * list Effect :=
  let moreSections :=
    match sections test with
    | Some secs => hasSections test && (currentSectionIndex s + 1 <? length secs)
    | None => false
    end in
  if moreSections then
    let s1 := setShowSectionComplete false
                (setCurrentQuestionIndex 0
                   (setCurrentSectionIndex (currentSectionIndex s + 1) s)) in
    let nextSectionQuestions :=
      match sections test with
      | Some secs => from_option questions [] (secs !! (currentSectionIndex s + 1))
      | None => []
      end in
    match head nextSectionQuestions with
    | Some q => (setVisitedQuestions (fun prev => <[q_id q := true]> prev) s1, [])
    | None => (s1, [])
    end
  else if codingAvailable then
    (selectFirstCoding
       (setShowCodingSection true
          (setShowSectionComplete false (setMcqCompleted true s))),
     [ConsoleLog LogEndOfSections; ConsoleLog LogMovingToCoding])
  else
    (setShowSubmitConfirm true s,
     [ConsoleLog LogEndOfSections; ConsoleLog LogNoCodingSection]).

(** *** Palette status and section counts *)

Inductive QuestionStatus :=
  | AnsweredMarked | Answered | Marked | NotAnswered | NotVisited.

(** [answers[q._id]], [markedForReview[q._id]] and
    [visitedQuestions[q._id]] in a boolean position, read from the own
    keys: the code's value for every id that is not an [inheritedKey]. *)
Definition isAnswered (s : State) (q : Question) : bool :=
  truthy_string (answers s !! q_id q).
Definition isMarked (s : State) (q : Question) : bool :=
  truthy_bool (markedForReview s !! q_id q).
Definition isVisited (s : State) (q : Question) : bool :=
  truthy_bool (visitedQuestions s !! q_id q).

Definition getQuestionStatus (s : State) (question : Question) : QuestionStatus :=
  let answered := isAnswered s question in
  let marked := isMarked s question in
  let visited := isVisited s question in
  if answered && marked then AnsweredMarked
  else if answered then Answered
  else if marked then Marked
  else if visited then NotAnswered
  else NotVisited.

Record SectionCounts := {
  answered : nat;
  notAnswered : nat;
  marked : nat;
  notVisited : nat
}.

Definition getSectionCounts (s : State) : SectionCounts :=
  let qs := getCurrentSectionQuestions s in
  {| answered := length (List.filter (fun q => isAnswered s q && negb (isMarked s q)) qs);
     notAnswered := length (List.filter (fun q => negb (isAnswered s q) && isVisited s q) qs);
     marked := length (List.filter (fun q => isMarked s q) qs);
     notVisited := length (List.filter (fun q => negb (isVisited s q)) qs) |}.

Definition countsTotal (c : SectionCounts) : nat :=
  answered c + notAnswered c + marked c + notVisited c.

(** *** Final submission *)

(** [test.hasSections && test.sections ? test.sections.flatMap(s =>
    s.questions) : test.questions] *)
Definition allQuestions : list Question :=
  if hasSections test then
    match sections test with
    | Some secs => concat (map questions secs)
    | None => t_questions test
    end
  else t_questions test.

(** [answers[question._id] || ''], read from the own keys: the code's
    value for every id that is not an [inheritedKey]. *)
Definition answerOrEmpty (ans : gmap string string) (qid : string) : string :=
  if truthy_string (ans !! qid) then default EmptyString (ans !! qid) else EmptyString.

Definition submissionAnswers (ans : gmap string string) : list SubmissionAnswer :=
  map (fun question =>
         {| questionId := q_id question;
            selectedAnswer := answerOrEmpty ans (q_id question);
            sa_timeSpent := Some 0 |})
      allQuestions.

(** [Math.floor((Date.now() - startTime.getTime()) / 1000 / 60)] *)
Definition minutesSince (now : Z) : Z := ((now - startTime) / (1000 * 60))%Z.

(** [Math.floor((new Date().getTime() - startTime.getTime()) / 1000)] *)
Definition secondsSince (now : Z) : Z := ((now - startTime) / 1000)%Z.

(** [handleSubmit] up to its [await onSubmit(...)]. [r] is the render
    the handler belongs to: its guard, answers and coding submissions
    are read there. *)
Definition handleSubmit (r : State) (now : Z) (w : Session) : Session * list Effect :=
  if submitting r then (w, [])
  else
    ({| st := setSubmitting true (st w);
        timerClosure := timerClosure w;
        storage := storage w;
        pending := pending w ++ [ByHandleSubmit] |},
     [OnSubmit (submissionAnswers (answers r)) (minutesSince now) (codingSubmissions r)]).

Definition handleAutoSubmit (r : State) (now : Z) (w : Session) : Session * list Effect :=
  if submitting r then (w, [])
  else if negb (mcqCompleted r) && codingAvailable then
    (withState (fun s => selectFirstCoding (setShowCodingSection true (setMcqCompleted true s))) w,
     [ConsoleLog LogTimeExpiredTransition])
  else handleSubmit r now w.

(** [Object.entries(answers).map(...)] of the violation auto-submit. The
    order of the entries is that of [map_to_list], not insertion order. *)
Definition answerArray (ans : gmap string string) : list SubmissionAnswer :=
  map (fun e => {| questionId := e.1; selectedAnswer := e.2; sa_timeSpent := None |})
      (map_to_list ans).

(** [autoSubmitTest], up to its [await onSubmit(...)] when there is no
    coding section. *)
Definition autoSubmitTest (now : Z) (w : Session) : Session * list Effect :=
  if codingAvailable then
    (withState
       (fun s => setSubmitting false
                   (selectFirstCoding
                      (setShowCodingSection true
                         (setMcqCompleted true (setSubmitting true s))))) w,
     [ConsoleLog LogViolationsTransition])
  else
    ({| st := setSubmitting true (st w);
        timerClosure := timerClosure w;
        storage := storage w;
        pending := pending w ++ [ByAutoSubmitTest] |},
     [ConsoleLog LogViolationsAutoSubmit;
      OnSubmit (answerArray (answers (st w))) (secondsSince now) (codingSubmissions (st w))]).

Definition violationCondition (s : State) : bool :=
  (3 <=? violations s) && negb (showInstructions s) && negb (submitting s)
  && negb (mcqCompleted s).

(** The effect that watches [violations]. Its condition only reads
    values of its dependency list and is false after it has run, so it is
    run after every event. *)
Definition violationEffect (now : Z) (w : Session) : Session * list Effect :=
  if violationCondition (st w) then autoSubmitTest now w else (w, []).

(** What runs when the promise returned by [onSubmit] settles. *)
Definition settle (c : Caller) (ok : bool) (w : Session) : Session * list Effect :=
  match c, ok with
  | ByHandleSubmit, true =>
      ({| st := setSubmitting false (setShowSubmitConfirm false (st w));
          timerClosure := timerClosure w;
          storage := None;
          pending := pending w |},
       [LocalStorageRemoveItem; OnExit])
  | ByHandleSubmit, false =>
      (withState (fun s => setShowSubmitConfirm false (setSubmitting false s)) w,
       [ConsoleError ErrSubmit; Alert AlertSubmitFailed])
  | ByAutoSubmitTest, true =>
      ({| st := setSubmitting false (st w);
          timerClosure := timerClosure w;
          storage := None;
          pending := pending w |},
       [LocalStorageRemoveItem; OnExit])
  | ByAutoSubmitTest, false =>
      (withState (setSubmitting false) w, [ConsoleError ErrAutoSubmitting])
  end.

(** Drop the first occurrence of [c]. *)
Fixpoint removeCaller (c : Caller) (l : list Caller) : list Caller :=
  match l with
  | [] => []
  | x :: l' => if decide (x = c) then l' else x :: removeCaller c l'
  end.

(** *** Clock and violation monitor *)

(** The updater given to [setTimeLeft]: the new value, and whether it
    called [handleAutoSubmit]. *)
Definition timerUpdater (prev : nat) : nat * bool :=
  if prev <=? 1 then (0, true) else (prev - 1, false).

Definition onInterval (now : Z) (w : Session) : Session * list Effect :=
  match timerClosure w with
  | None => (w, [])
  | Some r =>
      let '(next, expired) := timerUpdater (timeLeft (st w)) in
      let '(w1, eff) := if expired then handleAutoSubmit r now w else (w, []) in
      (withState (setTimeLeft (fun _ => next)) w1, eff)
  end.

Definition handleVisibilityChange (s : State) : State * list Effect :=
  let newViolations := violations s + 1 in
  (setViolations (fun prev => prev + 1) s,
   [Alert (if 3 <=? newViolations then AlertViolationLimit
           else AlertViolationWarning newViolations)]).

(** *** Checkpoint *)

Definition snapshot (s : State) : TestProgress := {|
  p_answers := Some (answers s);
  p_markedForReview := Some (markedForReview s);
  p_visitedQuestions := Some (visitedQuestions s);
  p_currentSectionIndex := Some (currentSectionIndex s);
  p_currentQuestionIndex := Some (currentQuestionIndex s);
  p_violations := Some (violations s);
  p_timeLeft := Some (timeLeft s);
  p_mcqCompleted := Some (mcqCompleted s);
  p_selectedCodingQuestionId := selectedCodingQuestionId s;
  p_codingSubmissions := Some (codingSubmissions s);
  p_testStartTime := Some startTime
|}.

Definition handleBeforeUnload (w : Session) : Session * list Effect :=
  if negb (showInstructions (st w)) && negb (submitting (st w)) then
    ({| st := st w; timerClosure := timerClosure w;
        storage := Some (snapshot (st w)); pending := pending w |},
     [LocalStorageSetItem (snapshot (st w))])
  else (w, []).

(** The body of the restore effect: eight setters, each with its [||]
    default. *)
Definition restoreProgress (progress : TestProgress) (s : State) : State :=
  setSelectedCodingQuestionId (or_string (p_selectedCodingQuestionId progress) None)
    (setMcqCompleted (default false (p_mcqCompleted progress))
       (setViolations (fun _ => default 0 (p_violations progress))
          (setCurrentQuestionIndex (default 0 (p_currentQuestionIndex progress))
             (setCurrentSectionIndex (default 0 (p_currentSectionIndex progress))
                (setVisitedQuestions (fun _ => default ∅ (p_visitedQuestions progress))
                   (setMarkedForReview (fun _ => default ∅ (p_markedForReview progress))
                      (setAnswers (fun _ => default ∅ (p_answers progress)) s))))))).

(** Mounting: initial state, then the restore effect, which runs while
    [showInstructions] holds. *)
Definition mount (saved : option TestProgress) : Session := {|
  st := match saved with
        | Some progress => restoreProgress progress (initialState test)
        | None => initialState test
        end;
  timerClosure := None;
  storage := saved;
  pending := []
|}.

(** *** Start *)

(** The state updates after [await enterFullscreen()] are applied
    together; the timer effect of the resulting render creates the
    interval, whose callback keeps that render's [handleAutoSubmit]. *)
Definition handleStartTest (w : Session) : Session * list Effect :=
  let s := st w in
  if negb (agreedToTerms s) then (w, [Alert AlertAcceptTerms])
  else
    let s1 := setShowInstructions false s in
    let qs := getCurrentSectionQuestions s in
    let '(s2, eff) :=
      match qs with
      | [] =>
          (if codingAvailable
           then selectFirstCoding (setMcqCompleted true (setShowCodingSection true s1))
           else s1,
           [ConsoleLog LogCodingOnly])
      | firstQuestion :: _ =>
          (setVisitedQuestions (fun _ => {[ q_id firstQuestion := true ]}) s1, [])
      end in
    ({| st := s2; timerClosure := Some s2; storage := storage w; pending := pending w |}, eff).

(** *** Render: which view is shown, which controls it offers *)

Definition render (s : State) : View :=
  if showInstructions s then ViewInstructions
  else if showCodingSection s then ViewCoding
  else match getCurrentQuestion s with
       | None => ViewLoading
       | Some q => ViewMcq q
       end.

(** Whether the event has a listener or an enabled control in the
    current render. Overlays do not disable what lies under them. *)
Definition enabled (w : Session) (e : Event) : bool :=
  let s := st w in
  match e, render s with
  | ChangeAgreed _, ViewInstructions => true
  | ClickCancel, ViewInstructions => true
  | ClickStartTest, ViewInstructions => agreedToTerms s
  | Tick, _ => negb (showInstructions s)
  | VisibilityHidden, _ => negb (showInstructions s)
  | BeforeUnload, _ => true
  | SubmitSettled c _, _ => bool_decide (c ∈ pending w)
  | ClickCodingSubmit, ViewCoding => true
  | ClickCodingQuestion i, ViewCoding =>
      match codingQuestions test with
      | Some cqs => bool_decide (i < length cqs)
      | None => false
      end
  | CodingSubmitted _ _, ViewCoding => truthy_string (selectedCodingQuestionId s)
  | ChangeOption _, ViewMcq _ => true
  | ClickPrevious, ViewMcq _ => negb (currentQuestionIndex s =? 0)
  | ClickMarkForReviewAndNext, ViewMcq _ => true
  | ClickClearResponse, ViewMcq q => isAnswered s q
  | ClickSaveAndNext, ViewMcq _ => true
  | ClickPalette i, ViewMcq _ => bool_decide (i < length (getCurrentSectionQuestions s))
  | ClickHeaderButton, ViewMcq _ => true
  | ClickReviewAnswers, ViewMcq _ => showSectionComplete s
  | ClickNextSection, ViewMcq _ => showSectionComplete s
  | ClickCancelSubmit, ViewMcq _ => showSubmitConfirm s && negb (submitting s)
  | ClickSubmitFinal, ViewMcq _ => showSubmitConfirm s && negb (submitting s)
  | _, _ => false
  end.

(** The listener or [onClick] of each event. *)
Definition handle (now : Z) (e : Event) (w : Session) : Session * list Effect :=
  let s := st w in
  let pure (f : State -> State) := (withState f w, @nil Effect) in
  match e with
  | ChangeAgreed checked => pure (setAgreedToTerms checked)
  | ClickCancel => (w, [OnExit])
  | ClickStartTest => handleStartTest w
  | Tick => onInterval now w
  | VisibilityHidden =>
      let '(s', eff) := handleVisibilityChange s in (withState (fun _ => s') w, eff)
  | BeforeUnload => handleBeforeUnload w
  | SubmitSettled c ok =>
      settle c ok {| st := st w; timerClosure := timerClosure w;
                     storage := storage w; pending := removeCaller c (pending w) |}
  | ChangeOption k =>
      match getCurrentQuestion s with
      | Some currentQuestion => pure (handleAnswerSelect (q_id currentQuestion) (optionLabel k))
      | None => (w, [])
      end
  | ClickPrevious =>
      if 0 <? currentQuestionIndex s
      then pure (handleNavigateToQuestion (currentQuestionIndex s - 1))
      else (w, [])
  | ClickMarkForReviewAndNext => pure handleMarkForReviewAndNext
  | ClickClearResponse => pure handleClearResponse
  | ClickSaveAndNext => pure handleSaveAndNext
  | ClickPalette index => pure (handleNavigateToQuestion index)
  | ClickHeaderButton =>
      if codingAvailable then
        (withState (fun s => selectFirstCoding (setShowCodingSection true (setMcqCompleted true s))) w,
         [ConsoleLog LogTopButtonClicked; ConsoleLog LogTransitioningToCoding])
      else
        (withState (setShowSubmitConfirm true) w,
         [ConsoleLog LogTopButtonClicked; ConsoleLog LogNoCodingShowConfirm])
  | ClickReviewAnswers => pure (setShowSectionComplete false)
  | ClickNextSection =>
      let '(s', eff) := handleNextSection s in (withState (fun _ => s') w, eff)
  | ClickCancelSubmit => pure (setShowSubmitConfirm false)
  | ClickSubmitFinal => handleSubmit s now w
  | ClickCodingSubmit =>
      (withState (setShowSubmitConfirm true) w, [ConsoleLog LogCodingSubmitClicked])
  | ClickCodingQuestion index =>
      match codingQuestions test with
      | Some cqs =>
          match cqs !! index with
          | Some cq => pure (setSelectedCodingQuestionId (codingId cq))
          | None => (w, [])
          end
      | None => (w, [])
      end
  | CodingSubmitted id points =>
      pure (setCodingSubmissions (fun prev => prev ++ [{| submissionId := id; score := points |}]))
  end.

(** One event at wall-clock time [now]: its handler, then the effects
    of the resulting render. *)
Definition step (w : Session) (i : Z * Event) : Session * list Effect :=
  let '(now, e) := i in
  let '(w1, eff1) := if enabled w e then handle now e w else (w, []) in
  let '(w2, eff2) := violationEffect now w1 in
  (w2, eff1 ++ eff2).

Fixpoint run (w : Session) (inputs : list (Z * Event)) : Session * list Effect :=
  match inputs with
  | [] => (w, [])
  | i :: rest =>
      let '(w1, eff1) := step w i in
      let '(w2, eff2) := run w1 rest in
      (w2, eff1 ++ eff2)
  end.

End Component.

(** ** Observations on effect traces *)

Definition isOnSubmit (e : Effect) : bool :=
  match e with OnSubmit _ _ _ => true | _ => false end.

(** The calls made to the submission collaborator. *)
Definition submissions (eff : list Effect) : list Effect :=
  List.filter isOnSubmit eff.

(** Both forced transitions into the coding section announce themselves
    on the console. *)
Definition isForcedTransition (e : Effect) : bool :=
  match e with
  | ConsoleLog LogViolationsTransition => true
  | ConsoleLog LogTimeExpiredTransition => true
  | _ => false
  end.

Definition forcedTransitions (eff : list Effect) : nat :=
  length (List.filter isForcedTransition eff).

(** Number of questions of a list that the palette shows in a status. *)
Definition statusCount (s : State) (qs : list Question)
    (status : QuestionStatus) : nat :=
  length (List.filter
            (fun q => match getQuestionStatus s q, status with
                      | AnsweredMarked, AnsweredMarked | Answered, Answered
                      | Marked, Marked | NotAnswered, NotAnswered
                      | NotVisited, NotVisited => true
                      | _, _ => false
                      end) qs).

(** ** Sample tests and sessions *)

Definition mkQuestion (id : string) : Question :=
  {| q_id := id; questionText := "text"; marks := 1 |}.

Definition mkCoding (id : string) : CodingQuestion :=
  {| cq_id := Some id; cq_questionId := None |}.

(** Three questions, no sections, no coding section, one minute. *)
Definition flatTest : Test := {|
  t_id := "t1"; hasSections := false; sections := None; duration := 1;
  t_questions := [mkQuestion "q1"; mkQuestion "q2"; mkQuestion "q3"];
  hasCodingSection := false; codingQuestions := None
|}.

(** One question followed by a coding section of two questions. *)
Definition codingTest : Test := {|
  t_id := "t2"; hasSections := false; sections := None; duration := 1;
  t_questions := [mkQuestion "q1"];
  hasCodingSection := true;
  codingQuestions := Some [mkCoding "c1"; mkCoding "c2"]
|}.

(** A coding question whose identifiers are empty strings. *)
Definition blankIdTest : Test := {|
  t_id := "t3"; hasSections := false; sections := None; duration := 1;
  t_questions := [mkQuestion "q1"];
  hasCodingSection := true;
  codingQuestions := Some [{| cq_id := Some EmptyString; cq_questionId := Some EmptyString |}]
|}.

(** Two sections of three questions each, no coding section. *)
Definition sectionedTest : Test := {|
  t_id := "t4"; hasSections := true;
  sections := Some [ {| sec_id := "s1"; sectionName := "One";
                        questions := [mkQuestion "a1"; mkQuestion "a2"; mkQuestion "a3"] |};
                     {| sec_id := "s2"; sectionName := "Two";
                        questions := [mkQuestion "b1"; mkQuestion "b2"; mkQuestion "b3"] |} ];
  duration := 1; t_questions := [];
  hasCodingSection := false; codingQuestions := None
|}.

Definition startInputs : list (Z * Event) :=
  [(0%Z, ChangeAgreed true); (0%Z, ClickStartTest)].

(** Start, then mark the first question for review without answering. *)
Definition markedUnansweredInputs : list (Z * Event) :=
  startInputs ++ [(5000%Z, ClickMarkForReviewAndNext)].

(** Start, answer the first question, leave the tab three times; the
    third time 125 seconds after the start. *)
Definition violationInputs : list (Z * Event) :=
  startInputs ++
  [(5000%Z, ChangeOption OptA); (10000%Z, VisibilityHidden);
   (20000%Z, VisibilityHidden); (125000%Z, VisibilityHidden)].

(** Start and let the clock tick [n] times, one second apart. *)
Definition tickInputs (n : nat) : list (Z * Event) :=
  startInputs ++ map (fun k => ((Z.of_nat k * 1000)%Z, Tick)) (seq 1 n).

(** Start, leave the tab three times, pick the second coding question,
    then let the clock tick [n] times. *)
Definition violationThenTicksInputs (n : nat) : list (Z * Event) :=
  startInputs ++
  [(1000%Z, VisibilityHidden); (2000%Z, VisibilityHidden); (3000%Z, VisibilityHidden);
   (4000%Z, ClickCodingQuestion 1)] ++
  map (fun k => ((Z.of_nat k * 1000)%Z, Tick)) (seq 5 n).

(** Answer the first question of the section, mark the second for
    review, leave the third unanswered and reach the end of the section. *)
Definition sectionOneInputs : list (Z * Event) :=
  startInputs ++
  [(1000%Z, ChangeOption OptA); (2000%Z, ClickSaveAndNext);
   (3000%Z, ClickMarkForReviewAndNext); (4000%Z, ClickSaveAndNext)].

(** Start, go to the second question, answer it, and leave the page. *)
Definition answerSecondAndUnloadInputs : list (Z * Event) :=
  startInputs ++
  [(1000%Z, ClickSaveAndNext); (2000%Z, ChangeOption OptB); (3000%Z, BeforeUnload)].

(** Open the submit dialog of [flatTest], confirm, and have the
    collaborator reject. *)
Definition rejectedSubmitInputs : list (Z * Event) :=
  startInputs ++
  [(1000%Z, ClickHeaderButton); (2000%Z, ClickSubmitFinal);
   (3000%Z, SubmitSettled ByHandleSubmit false)].

(** ** Invariants of the mounted component *)

(** The fields that decide the phase of the session. *)
Definition flags (s : State) : bool * bool * bool * bool * bool :=
  (showInstructions s, submitting s, mcqCompleted s, showSubmitConfirm s,
   showCodingSection s).


(** What holds of every session reached from [mount]: the interval
    exists exactly when the instructions are gone, and its callback was
    created with the guard down and before [mcqCompleted] could be set
    any later than in the current state; with a coding section, the
    guard is only ever up after the MCQ part, and the submit dialog is
    only ever requested from the coding view. *)
Definition sessionInv (test : Test) (w : Session) : Prop :=
  (showInstructions (st w) = true ->
     timerClosure w = None /\ submitting (st w) = false)
  /\ (showInstructions (st w) = false ->
      exists r, timerClosure w = Some r
                /\ submitting r = false
                /\ (mcqCompleted r = true -> mcqCompleted (st w) = true))
  /\ (codingAvailable test = true ->
      submitting (st w) = true -> mcqCompleted (st w) = true)
  /\ (codingAvailable test = true ->
      showSubmitConfirm (st w) = true -> showCodingSection (st w) = true).

(** The fields the answer ledger lives in. *)
Definition ledger (s : State) :
    bool * nat * nat * gmap string string * gmap string bool :=
  (showInstructions s, currentSectionIndex s, currentQuestionIndex s, answers s,
   visitedQuestions s).

(** What holds of the ledger in every session mounted without a
    checkpoint: answered questions are visited; nothing is answered and
    the position is the first question until the test is started; the
    question on screen is visited from then on. *)
Definition ledgerInv (test : Test) (s : State) : Prop :=
  (forall qid, is_Some (answers s !! qid) -> visitedQuestions s !! qid = Some true)
  /\ (showInstructions s = true -> answers s = ∅ /\ currentQuestionIndex s = 0)
  /\ (showInstructions s = false ->
      forall q, getCurrentQuestion test s = Some q ->
                visitedQuestions s !! q_id q = Some true).

(** Start, leave the tab twice, and let the clock run down to its last
    second. *)
Definition lastSecondInputs : list (Z * Event) :=
  startInputs ++
  [(1000%Z, VisibilityHidden); (2000%Z, VisibilityHidden)] ++
  map (fun k => ((Z.of_nat k * 1000)%Z, Tick)) (seq 3 59).

(** ** Question ids that are own keys only *)

(** No question of the test has an id that names a member of
    [Object.prototype]: every lookup by question id reads an own key or
    [undefined]. *)
Definition plainQuestionIds (test : Test) : bool :=
  forallb (fun q => negb (inheritedKey (q_id q))) (allQuestions test).

(** ** Palette colours and the clock display *)

(** [getStatusColor], on the five statuses [getQuestionStatus] returns
    (any other string gets the [default] case). *)
Definition getStatusColor (status : QuestionStatus) : string :=
  match status with
  | Answered => "bg-green-500 text-white"
  | NotAnswered => "bg-red-500 text-white"
  | Marked | AnsweredMarked => "bg-purple-500 text-white"
  | NotVisited => "bg-gray-300 text-gray-700"
  end.

(** Number of palette buttons of a list of questions drawn in a colour. *)
Definition paletteCount (s : State) (qs : list Question) (colour : string) : nat :=
  length (List.filter
            (fun q => String.eqb (getStatusColor (getQuestionStatus s q)) colour) qs).

(** [n.toString()] of a natural number. *)
Definition toString (n : nat) : string := NilZero.string_of_uint (Nat.to_uint n).

Fixpoint repeatChar (n : nat) (c : Ascii.ascii) : string :=
  match n with
  | 0 => EmptyString
  | S n' => String c (repeatChar n' c)
  end.

(** [s.padStart(targetLength, c)] with a one-character pad. *)
Definition padStart (targetLength : nat) (c : Ascii.ascii) (s : string) : string :=
  String.append (repeatChar (targetLength - String.length s) c) s.

Definition pad2 (n : nat) : string := padStart 2 "0"%char (toString n).

(** [formatTime], on whole seconds. *)
Definition formatTime (seconds : nat) : string :=
  let hours := seconds / 3600 in
  let minutes := (seconds mod 3600) / 60 in
  let secs := seconds mod 60 in
  if 0 <? hours then
    String.append (pad2 hours)
      (String.append ":" (String.append (pad2 minutes) (String.append ":" (pad2 secs))))
  else
    String.append (pad2 minutes) (String.append ":" (pad2 secs)).

(** The character of a decimal digit, and the two-digit rendering of a
    number below 100. *)
Definition digitChar (d : nat) : Ascii.ascii := ascii_of_nat (48 + d).

Definition twoDigits (n : nat) : string :=
  String (digitChar (n / 10)) (String (digitChar (n mod 10)) EmptyString).

(** The terms are accepted in every running test. *)
Definition termsInv (s : State) : Prop :=
  showInstructions s = false -> agreedToTerms s = true.

(** The selected coding question is one of the test's, if any. *)
Definition selectionInv (test : Test) (s : State) : Prop :=
  selectedCodingQuestionId s = None
  \/ exists cqs cq, codingQuestions test = Some cqs /\ In cq cqs
                    /\ selectedCodingQuestionId s = codingId cq.

(** Events that come from the environment rather than from a control of
    the page: the clock, the tab, the page unload, the outcome of a
    submission. *)
Definition isAmbient (e : Event) : bool :=
  match e with
  | Tick | VisibilityHidden | BeforeUnload | SubmitSettled _ _ => true
  | _ => false
  end.

(** Events that are not clock ticks. *)
Definition notTick (i : Z * Event) : Prop :=
  match i.2 with Tick => False | _ => True end.

(** What one event or a whole run may change in the counters and phase
    flags: violations do not go down, the clock does not go up, the
    phase flags move one way, coding submissions are only appended. *)
Definition advances (s s' : State) : Prop :=
  violations s <= violations s'
  /\ timeLeft s' <= timeLeft s
  /\ (mcqCompleted s = true -> mcqCompleted s' = true)
  /\ (showCodingSection s = true -> showCodingSection s' = true)
  /\ (showInstructions s = false -> showInstructions s' = false)
  /\ codingSubmissions s `prefix_of` codingSubmissions s'.

(** The coding view is only ever shown after the instructions and with
    the MCQ part completed. *)
Definition codingInv (s : State) : Prop :=
  showCodingSection s = true ->
  showInstructions s = false /\ mcqCompleted s = true.

(** In a session mounted without checkpoint the question index is inside
    the current section's list, or 0. *)
Definition positionInv (test : Test) (s : State) : Prop :=
  currentQuestionIndex s < length (getCurrentSectionQuestions test s)
  \/ currentQuestionIndex s = 0.

(** In a session mounted without checkpoint nothing is answered or
    submitted to the coding bridge before the start, so the render the
    interval callback belongs to has no answers and no coding
    submissions. *)
Definition startRenderInv (w : Session) : Prop :=
  (showInstructions (st w) = true ->
     answers (st w) = ∅ /\ codingSubmissions (st w) = [])
  /\ (forall r, timerClosure w = Some r ->
                answers r = ∅ /\ codingSubmissions r = []).

(** ** The persistence hook ([useTestPersistence]) *)

Module UseTestPersistence.

Section Hook.

(** The progress object handed to the hook and [JSON.stringify]. *)
Variable Data : Type.
Variable stringify : Data -> string.

(** [`test_progress_${testId}`] *)
Definition progressKey (testId : string) : string :=
  String.append "test_progress_" testId.

(** The listener the hook attaches to [beforeunload]; [localStorage] is a
    map from keys to strings. *)
Definition handleBeforeUnload (testId : string) (testData : Data)
    (isActive isSubmitting : bool) (localStorage : gmap string string) :
    gmap string string :=
  if isActive && negb isSubmitting
  then <[progressKey testId := stringify testData]> localStorage
  else localStorage.

Definition saveProgressDirectly (testId : string) (testData : Data)
    (isActive isSubmitting : bool) (localStorage : gmap string string) :
    gmap string string :=
  if isActive && negb isSubmitting
  then <[progressKey testId := stringify testData]> localStorage
  else localStorage.

Definition clearProgress (testId : string) (localStorage : gmap string string) :
    gmap string string :=
  delete (progressKey testId) localStorage.

End Hook.

End UseTestPersistence.

(** ** The resume context ([TestResumeProvider]) *)

Module TestResume.

Section Provider.

(** The [TestProgress] objects kept per test. *)
Variable Progress : Type.

(** The provider's [savedTests] state and the object stored under the
    key ['testProgress'] ([None] when the key is absent). *)
Record Provider := {
  savedTests : gmap string Progress;
  stored : option (gmap string Progress)
}.

(** [useState({})]: what [localStorage] holds is not read. *)
Definition mountProvider (inStorage : option (gmap string Progress)) : Provider :=
  {| savedTests := ∅; stored := inStorage |}.

(** [saveTestProgress], called from the render whose [savedTests] is
    [r]: the state is updated from the previous state, the stored copy
    from [r]. [ok] is whether [localStorage.setItem] succeeds; a failure
    is caught and logged. *)
Definition saveTestProgress (r : gmap string Progress) (testId : string)
    (progress : Progress) (ok : bool) (w : Provider) : Provider :=
  {| savedTests := <[testId := progress]> (savedTests w);
     stored := if ok then Some (<[testId := progress]> r) else stored w |}.

(** What [savedTests[testId] || null] evaluates to: the saved progress
    (an object, hence truthy), the member of [Object.prototype] of that
    name when [testId] is not an own key but names one, or [null]. *)
Inductive Read :=
  | ReadProgress (progress : Progress)
  | ReadInherited (name : string)
  | ReadNull.

(** [savedTests[testId] || null] *)
Definition getTestProgress (r : gmap string Progress) (testId : string) : Read :=
  match r !! testId with
  | Some progress => ReadProgress progress
  | None => if inheritedKey testId then ReadInherited testId else ReadNull
  end.

(** [clearTestProgress]: the entry is deleted from the previous state
    and the result written to [localStorage] by the same state updater.
    The updater runs when React processes the update, before the next
    render; here it runs at the call. [ok] is whether
    [localStorage.setItem] succeeds. *)
Definition clearTestProgress (testId : string) (ok : bool) (w : Provider) : Provider :=
  let updated := delete testId (savedTests w) in
  {| savedTests := updated;
     stored := if ok then Some updated else stored w |}.

(** [localStorage.removeItem] does not throw on a missing key. *)
Definition clearAllProgress (w : Provider) : Provider :=
  {| savedTests := ∅; stored := None |}.

(** [!!savedTests[testId]] *)
Definition hasUnsavedProgress (r : gmap string Progress) (testId : string) : bool :=
  match r !! testId with
  | Some _ => true
  | None => inheritedKey testId
  end.

(** The calls a consumer can make. *)
Inductive Call :=
  | CallSave (testId : string) (progress : Progress)
  | CallClear (testId : string)
  | CallClearAll.

(** A call made from an up-to-date render, with [localStorage] working. *)
Definition call (w : Provider) (c : Call) : Provider :=
  match c with
  | CallSave testId progress => saveTestProgress (savedTests w) testId progress true w
  | CallClear testId => clearTestProgress testId true w
  | CallClearAll => clearAllProgress w
  end.

End Provider.

End TestResume.

(** ** The report modal ([DetailedTestReportModal]) *)

Module Report.

Record Grade := {
  grade : string;
  color : string;
  bg : string
}.

(** [getGrade]; the percentage is a finite number, compared exactly. *)
Definition getGrade (percentage : Q) : Grade :=
  if Qle_bool 90 percentage then
    {| grade := "A+"; color := "text-green-600"; bg := "bg-green-100" |}
  else if Qle_bool 80 percentage then
    {| grade := "A"; color := "text-green-600"; bg := "bg-green-100" |}
  else if Qle_bool 70 percentage then
    {| grade := "B+"; color := "text-blue-600"; bg := "bg-blue-100" |}
  else if Qle_bool 60 percentage then
    {| grade := "B"; color := "text-blue-600"; bg := "bg-blue-100" |}
  else if Qle_bool 50 percentage then
    {| grade := "C"; color := "text-yellow-600"; bg := "bg-yellow-100" |}
  else if Qle_bool 40 percentage then
    {| grade := "D"; color := "text-orange-600"; bg := "bg-orange-100" |}
  else
    {| grade := "F"; color := "text-red-600"; bg := "bg-red-100" |}.

(** [report.percentage >= 40 ? 'Pass' : 'Fail'] *)
Definition passStatus (percentage : Q) : string :=
  if Qle_bool 40 percentage then "Pass" else "Fail".

(** [report.percentage >= 90 && ...]: whether the congratulation banner
    is rendered. *)
Definition showsBanner (percentage : Q) : bool := Qle_bool 90 percentage.

(** Position of a grade label on the scale, lowest first. *)
Definition gradeRank (label : string) : nat :=
  if String.eqb label "A+" then 6
  else if String.eqb label "A" then 5
  else if String.eqb label "B+" then 4
  else if String.eqb label "B" then 3
  else if String.eqb label "C" then 2
  else if String.eqb label "D" then 1
  else 0.

End Report.

(** * Properties *)

(** ** Section counts *)

Lemma statusCount_partition s qs :
  statusCount s qs AnsweredMarked + statusCount s qs Answered
  + statusCount s qs Marked + statusCount s qs NotAnswered
  + statusCount s qs NotVisited = length qs.
Proof.
  unfold statusCount.
  induction qs as [|q qs IH]; [reflexivity|].
  cbn [List.filter length].
  destruct (getQuestionStatus s q); cbn [length]; lia.
Qed.

(** Every question adds one to the total of the four counts, and one
    more when it is marked but unanswered, or answered but unvisited. *)
Lemma countsTotal_excess test s :
  countsTotal (getSectionCounts test s) =
  length (getCurrentSectionQuestions test s)
  + length (List.filter
              (fun q => (negb (isAnswered s q) && isMarked s q)
                        || (isAnswered s q && negb (isVisited s q)))
              (getCurrentSectionQuestions test s)).
Proof.
  unfold countsTotal, getSectionCounts; cbn [answered notAnswered marked notVisited].
  induction (getCurrentSectionQuestions test s) as [|q qs IH]; [reflexivity|].
  cbn [List.filter].
  destruct (isAnswered s q), (isMarked s q), (isVisited s q);
    cbn [negb andb orb length]; lia.
Qed.

(** C4. After starting a three-question test and pressing "Mark for
    Review & Next" on the unanswered first question, [getSectionCounts]
    returns answered 0, notAnswered 2, marked 1, notVisited 1: the first
    question is counted both as not answered and as marked, and the four
    counts add up to 4 for 3 questions. The palette status of the same
    question ([getQuestionStatus]) is the single status [Marked]. *)
Theorem getSectionCounts_counts_marked_twice :
  let s := st (run flatTest 0 (mount flatTest None) markedUnansweredInputs).1 in
  getSectionCounts flatTest s
    = {| answered := 0; notAnswered := 2; marked := 1; notVisited := 1 |}
  /\ countsTotal (getSectionCounts flatTest s) = 4
  /\ length (getCurrentSectionQuestions flatTest s) = 3
  /\ getQuestionStatus s (mkQuestion "q1") = Marked.
Proof. vm_compute. repeat split; reflexivity. Qed.

(** The same double count in a sectioned test: the marked, unanswered
    second question is also counted as not answered. Proceeding then
    moves to the second section. *)
Lemma sectionOne_counts :
  let w := (run sectionedTest 0 (mount sectionedTest None) sectionOneInputs).1 in
  let w' := (step sectionedTest 0 w (5000%Z, ClickNextSection)).1 in
  showSectionComplete (st w) = true
  /\ getSectionCounts sectionedTest (st w)
     = {| answered := 1; notAnswered := 2; marked := 1; notVisited := 0 |}
  /\ currentSectionIndex (st w') = 1
  /\ getCurrentQuestion sectionedTest (st w') = Some (mkQuestion "b1").
Proof. vm_compute. repeat split; reflexivity. Qed.

(** ** Final submission payload *)

(** [handleSubmit] lists every question of the test, in order. *)
Lemma submissionAnswers_questionIds test ans :
  map questionId (submissionAnswers test ans) = map q_id (allQuestions test).
Proof.
  unfold submissionAnswers. rewrite map_map. reflexivity.
Qed.

Lemma submissionAnswers_unanswered test ans a :
  In a (submissionAnswers test ans) ->
  ans !! questionId a = None ->
  selectedAnswer a = EmptyString.
Proof.
  unfold submissionAnswers. rewrite in_map_iff.
  intros (q & <- & _) Hnone. cbn in *.
  unfold answerOrEmpty. rewrite Hnone. reflexivity.
Qed.

Lemma submissionAnswers_answered test ans a v :
  In a (submissionAnswers test ans) ->
  ans !! questionId a = Some v ->
  selectedAnswer a = v.
Proof.
  unfold submissionAnswers. rewrite in_map_iff.
  intros (q & <- & _) Hsome. cbn in *.
  unfold answerOrEmpty. rewrite Hsome. cbn.
  destruct (String.eqb_spec v EmptyString); cbn; congruence.
Qed.

Lemma minutesSince_whole startTime now :
  (60000 * minutesSince startTime now <= now - startTime
   < 60000 * (minutesSince startTime now + 1))%Z.
Proof.
  unfold minutesSince. change (1000 * 60)%Z with 60000%Z.
  pose proof (Z.div_mod (now - startTime) 60000 ltac:(lia)).
  pose proof (Z.mod_pos_bound (now - startTime) 60000 ltac:(lia)).
  lia.
Qed.

(** What [handleSubmit] hands over when its guard lets it through. *)
Lemma handleSubmit_handoff test startTime r now w :
  submitting r = false ->
  (handleSubmit test startTime r now w).2 =
  [OnSubmit (submissionAnswers test (answers r)) (minutesSince startTime now)
            (codingSubmissions r)].
Proof.
  intros Hr. unfold handleSubmit. rewrite Hr. reflexivity.
Qed.

(** C1. On a test without coding section, the third tab switch, 125
    seconds after the start with only the first of three questions
    answered, makes [autoSubmitTest] hand over an array holding that one
    answer and the time 125 (seconds). [handleSubmit] would hand over
    three entries and 2 (minutes) in the same state. *)
Theorem autoSubmitTest_hands_answered_only_in_seconds :
  let r := run flatTest 0 (mount flatTest None) violationInputs in
  submissions r.2 =
    [OnSubmit [{| questionId := "q1"; selectedAnswer := "A"; sa_timeSpent := None |}]
              125 []]
  /\ map questionId (submissionAnswers flatTest (answers (st r.1))) = ["q1"; "q2"; "q3"]
  /\ minutesSince 0 125000 = 2%Z.
Proof. vm_compute. repeat split; reflexivity. Qed.

(** The submission forced by the clock reads the answers of the render
    in which the test was started: an answer given since then is handed
    over as the empty string. *)
Lemma clock_submission_reads_start_answers :
  let r := run flatTest 0 (mount flatTest None)
             (startInputs ++ [(500%Z, ChangeOption OptA)]
              ++ map (fun k => ((Z.of_nat k * 1000)%Z, Tick)) (seq 1 60)) in
  answers (st r.1) !! "q1" = Some "A"
  /\ submissions r.2 =
       [OnSubmit [{| questionId := "q1"; selectedAnswer := EmptyString; sa_timeSpent := Some 0 |};
                  {| questionId := "q2"; selectedAnswer := EmptyString; sa_timeSpent := Some 0 |};
                  {| questionId := "q3"; selectedAnswer := EmptyString; sa_timeSpent := Some 0 |}]
                 1 []].
Proof. vm_compute. split; reflexivity. Qed.

(** ** Clock *)

Lemma timerUpdater_running prev :
  2 <= prev -> timerUpdater prev = (prev - 1, false).
Proof.
  intros H. unfold timerUpdater.
  destruct (Nat.leb_spec prev 1); [lia | reflexivity].
Qed.

(** At zero the updater stays at zero and calls the expiry handler again. *)
Lemma timerUpdater_expired prev :
  prev <= 1 -> timerUpdater prev = (0, true).
Proof.
  intros H. unfold timerUpdater.
  destruct (Nat.leb_spec prev 1); [reflexivity | lia].
Qed.

(** C8. The interval is not cleared on expiry: the tick that takes the
    remaining time from 1 to 0 calls the expiry handler, and the next
    tick, at 0, calls it again. On a one-minute test the remaining time
    is 0 after 60 ticks, stays 0 afterwards, and the interval callback is
    still registered. *)
Theorem timer_expiry_fires_on_every_later_tick :
  let expired := (run flatTest 0 (mount flatTest None) (tickInputs 60)).1 in
  let later := (run flatTest 0 (mount flatTest None) (tickInputs 62)).1 in
  timerUpdater 1 = (0, true)
  /\ timerUpdater 0 = (0, true)
  /\ timeLeft (st expired) = 0
  /\ enabled flatTest expired Tick = true
  /\ timeLeft (st later) = 0
  /\ enabled flatTest later Tick = true.
Proof. vm_compute. repeat split; reflexivity. Qed.

(** On a test without coding section each of these calls reaches
    [onSubmit]: the guard that [handleSubmit] raises is not seen by the
    interval callback. *)
Lemma clock_resubmits_every_second :
  length (submissions (run flatTest 0 (mount flatTest None) (tickInputs 59)).2) = 0
  /\ length (submissions (run flatTest 0 (mount flatTest None) (tickInputs 60)).2) = 1
  /\ length (submissions (run flatTest 0 (mount flatTest None) (tickInputs 62)).2) = 3.
Proof. vm_compute. repeat split; reflexivity. Qed.

(** ** Forced transition into the coding section *)

(** C3. Three tab switches force the transition into the coding section;
    the user then picks the second coding question. When the clock runs
    out, the interval callback still holds the [handleAutoSubmit] of the
    render in which the test was started, where [mcqCompleted] is false:
    the forced transition fires a second time and the selection is put
    back to the first coding question. *)
Theorem forced_transition_fires_twice :
  let before := run codingTest 0 (mount codingTest None) (violationThenTicksInputs 59) in
  let after := run codingTest 0 (mount codingTest None) (violationThenTicksInputs 60) in
  forcedTransitions before.2 = 1
  /\ mcqCompleted (st before.1) = true
  /\ selectedCodingQuestionId (st before.1) = Some "c2"
  /\ forcedTransitions after.2 = 2
  /\ selectedCodingQuestionId (st after.1) = Some "c1"
  /\ submissions after.2 = [].
Proof. vm_compute. repeat split; reflexivity. Qed.

(** Once [mcqCompleted] is set, further tab switches are counted but
    force nothing: the violation effect is guarded by the current value. *)
Lemma hidden_after_transition_is_inert test startTime w now :
  mcqCompleted (st w) = true ->
  let r := step test startTime w (now, VisibilityHidden) in
  forcedTransitions r.2 = 0
  /\ submissions r.2 = []
  /\ mcqCompleted (st r.1) = true.
Proof.
  intros Hm. unfold step, violationEffect, violationCondition.
  destruct (enabled test w VisibilityHidden); cbn [handle];
    destruct w as [s tc sto pend]; destruct s; cbn -[Nat.leb] in *; subst;
    rewrite andb_false_r; cbn; auto.
Qed.

(** ** Checkpoint restore *)

(** C10. Whatever the checkpoint holds, the state after mounting keeps
    the initial value of every field outside the eight restored ones: the
    remaining time is the nominal [duration * 60], [codingSubmissions] is
    empty, and the view flags and the guard are as initialised. *)
Theorem restore_leaves_other_fields_initial test progress :
  let s := st (mount test (Some progress)) in
  timeLeft s = duration test * 60
  /\ codingSubmissions s = []
  /\ showInstructions s = true
  /\ agreedToTerms s = false
  /\ submitting s = false
  /\ showSectionComplete s = false
  /\ showSubmitConfirm s = false
  /\ showCodingSection s = false
  /\ setSelectedCodingQuestionId None
       (setMcqCompleted false
          (setViolations (fun _ => 0)
             (setCurrentQuestionIndex 0
                (setCurrentSectionIndex 0
                   (setVisitedQuestions (fun _ => ∅)
                      (setMarkedForReview (fun _ => ∅)
                         (setAnswers (fun _ => ∅) s))))))) = initialState test.
Proof. cbn. repeat split; reflexivity. Qed.

(** ** Section order *)

Lemma violationEffect_sectionIndex test startTime now w :
  currentSectionIndex (st (violationEffect test startTime now w).1)
  = currentSectionIndex (st w).
Proof.
  unfold violationEffect, autoSubmitTest, selectFirstCoding, withState.
  destruct w as [[] tc sto pend]; cbn.
  repeat case_match; reflexivity.
Qed.

Lemma handle_sectionIndex test startTime now e w :
  currentSectionIndex (st w)
  <= currentSectionIndex (st (handle test startTime now e w).1).
Proof.
  destruct w as [s tc sto pend].
  destruct e; cbn -[Nat.ltb Nat.leb];
    unfold handleStartTest, onInterval, timerUpdater, handleAutoSubmit, handleSubmit,
      handleVisibilityChange, handleBeforeUnload, settle, handleAnswerSelect,
      handleNavigateToQuestion, handleMarkForReviewAndNext, handleSaveAndNext,
      handleMarkForReview, handleClearResponse, handleNextSection,
      selectFirstCoding, withState;
    cbn -[Nat.ltb Nat.leb];
    repeat case_match; simplify_eq; destruct s; cbn -[Nat.ltb Nat.leb]; lia.
Qed.

Lemma step_sectionIndex test startTime w i :
  currentSectionIndex (st w)
  <= currentSectionIndex (st (step test startTime w i).1).
Proof.
  destruct i as [now e]. unfold step.
  destruct (enabled test w e).
  - pose proof (handle_sectionIndex test startTime now e w) as Hh.
    destruct (handle test startTime now e w) as [w1 eff1].
    pose proof (violationEffect_sectionIndex test startTime now w1) as Hv.
    destruct (violationEffect test startTime now w1) as [w2 eff2].
    cbn in *. lia.
  - pose proof (violationEffect_sectionIndex test startTime now w) as Hv.
    destruct (violationEffect test startTime now w) as [w2 eff2].
    cbn in *. lia.
Qed.

(** C5. No sequence of events lowers [currentSectionIndex]: from the
    mounted component (whose index is the restored one, or 0) and from
    every later state, the index after any further events is at least
    the index before them. *)
Theorem currentSectionIndex_never_decreases test startTime w inputs :
  currentSectionIndex (st w)
  <= currentSectionIndex (st (run test startTime w inputs).1).
Proof.
  revert w. induction inputs as [|i rest IH]; intros w; [cbn; lia|].
  cbn [run].
  pose proof (step_sectionIndex test startTime w i) as Hs.
  destruct (step test startTime w i) as [w1 eff1].
  specialize (IH w1).
  destruct (run test startTime w1 rest) as [w2 eff2].
  cbn in *. lia.
Qed.

(** ** Checkpoint round trip *)

(** C7 (counterexample). On [blankIdTest] the header button selects the
    first coding question, whose identifier is the empty string: it is
    saved as such and loaded back as [null]. *)
Lemma checkpoint_roundtrip_blank_selection :
  let w := (run blankIdTest 0 (mount blankIdTest None)
              (startInputs ++ [(1000%Z, ClickHeaderButton)])).1 in
  let loaded := st (mount blankIdTest (storage (handleBeforeUnload 0 w).1)) in
  showInstructions (st w) = false
  /\ submitting (st w) = false
  /\ selectedCodingQuestionId (st w) = Some EmptyString
  /\ selectedCodingQuestionId loaded = None
  /\ selectedCodingQuestionId loaded <> selectedCodingQuestionId (st w).
Proof. vm_compute. repeat split; try reflexivity. discriminate. Qed.

(** C7 (amended). When the unload handler saves (the test is running and
    no submission is under way), mounting from what it stored gives back
    the same [answers], [markedForReview], [visitedQuestions], section
    and question index, [violations] and [mcqCompleted]; the selected
    coding question is given back unless it is the empty string, which
    comes back as no selection. *)
Theorem checkpoint_roundtrip test startTime w :
  showInstructions (st w) = false ->
  submitting (st w) = false ->
  let loaded := st (mount test (storage (handleBeforeUnload startTime w).1)) in
  answers loaded = answers (st w)
  /\ markedForReview loaded = markedForReview (st w)
  /\ visitedQuestions loaded = visitedQuestions (st w)
  /\ currentSectionIndex loaded = currentSectionIndex (st w)
  /\ currentQuestionIndex loaded = currentQuestionIndex (st w)
  /\ violations loaded = violations (st w)
  /\ mcqCompleted loaded = mcqCompleted (st w)
  /\ selectedCodingQuestionId loaded =
       (if truthy_string (selectedCodingQuestionId (st w))
        then selectedCodingQuestionId (st w) else None).
Proof.
  intros Hi Hs. unfold handleBeforeUnload. rewrite Hi, Hs. cbn.
  unfold or_string. repeat split; reflexivity.
Qed.

Lemma checkpoint_roundtrip_witness :
  let w := (run codingTest 0 (mount codingTest None)
              (startInputs ++ [(1000%Z, ChangeOption OptA);
                               (2000%Z, ClickMarkForReviewAndNext);
                               (3000%Z, VisibilityHidden);
                               (4000%Z, ClickHeaderButton);
                               (5000%Z, ClickCodingQuestion 1)])).1 in
  let loaded := st (mount codingTest (storage (handleBeforeUnload 0 w).1)) in
  showInstructions (st w) = false
  /\ submitting (st w) = false
  /\ answers loaded = answers (st w)
  /\ markedForReview loaded = markedForReview (st w)
  /\ visitedQuestions loaded = visitedQuestions (st w)
  /\ currentSectionIndex loaded = currentSectionIndex (st w)
  /\ currentQuestionIndex loaded = currentQuestionIndex (st w)
  /\ violations loaded = violations (st w)
  /\ mcqCompleted loaded = mcqCompleted (st w)
  /\ selectedCodingQuestionId loaded =
       (if truthy_string (selectedCodingQuestionId (st w))
        then selectedCodingQuestionId (st w) else None).
Proof.
  split; [vm_compute; reflexivity|]. split; [vm_compute; reflexivity|].
  apply (checkpoint_roundtrip codingTest 0); vm_compute; reflexivity.
Defined.

(** ** Rejected submission *)

(** C6 (counterexample). The dialog is open when the user confirms and
    closed after the collaborator has rejected. *)
Lemma rejected_submit_closes_dialog :
  let confirmed := run flatTest 0 (mount flatTest None)
                     (startInputs ++ [(1000%Z, ClickHeaderButton); (2000%Z, ClickSubmitFinal)]) in
  let rejected := run flatTest 0 (mount flatTest None) rejectedSubmitInputs in
  showSubmitConfirm (st confirmed.1) = true
  /\ pending confirmed.1 = [ByHandleSubmit]
  /\ showSubmitConfirm (st rejected.1) = false
  /\ showSubmitConfirm (st rejected.1) <> true.
Proof. vm_compute. repeat split; try reflexivity. discriminate. Qed.

Lemma enabled_SubmitSettled test w c ok :
  enabled test w (SubmitSettled c ok) = bool_decide (c ∈ pending w).
Proof. unfold enabled. destruct (render test (st w)); reflexivity. Qed.

(** C6 (amended). When the collaborator rejects a handoff made by
    [handleSubmit], and the violation effect has no reason to run (fewer
    than three violations, or the MCQ part is completed), the submitting
    guard is cleared, the confirmation dialog is closed (not left open),
    the user is alerted, nothing else leaves the component (the
    checkpoint is not removed, [onExit] is not called), and the position,
    the answers and the phase flags are as before. *)
Theorem handleSubmit_rejection test startTime w now :
  ByHandleSubmit ∈ pending w ->
  violations (st w) < 3 \/ mcqCompleted (st w) = true ->
  let r := step test startTime w (now, SubmitSettled ByHandleSubmit false) in
  submitting (st r.1) = false
  /\ showSubmitConfirm (st r.1) = false
  /\ r.2 = [ConsoleError ErrSubmit; Alert AlertSubmitFailed]
  /\ storage r.1 = storage w
  /\ showInstructions (st r.1) = showInstructions (st w)
  /\ showCodingSection (st r.1) = showCodingSection (st w)
  /\ mcqCompleted (st r.1) = mcqCompleted (st w)
  /\ currentSectionIndex (st r.1) = currentSectionIndex (st w)
  /\ currentQuestionIndex (st r.1) = currentQuestionIndex (st w)
  /\ answers (st r.1) = answers (st w).
Proof.
  intros Hp Hv. unfold step.
  rewrite enabled_SubmitSettled, bool_decide_eq_true_2 by exact Hp.
  destruct w as [s tc sto pend]. cbn in Hv |- *.
  unfold violationEffect, violationCondition.
  destruct s as [? ? ? ? ? ? ? ? ? ? ? ? mcq ? ? v]; cbn in Hv |- *.
  destruct Hv as [Hv| ->].
  - destruct v as [|[|[|v]]]; [| | |lia]; cbn; repeat split; reflexivity.
  - rewrite andb_false_r. cbn. repeat split; reflexivity.
Qed.

Lemma handleSubmit_rejection_witness :
  let w := (run flatTest 0 (mount flatTest None)
              (startInputs ++ [(1000%Z, ClickHeaderButton); (2000%Z, ClickSubmitFinal)])).1 in
  let r := step flatTest 0 w (3000%Z, SubmitSettled ByHandleSubmit false) in
  ByHandleSubmit ∈ pending w
  /\ (violations (st w) < 3 \/ mcqCompleted (st w) = true)
  /\ submitting (st r.1) = false
  /\ showSubmitConfirm (st r.1) = false
  /\ r.2 = [ConsoleError ErrSubmit; Alert AlertSubmitFailed]
  /\ storage r.1 = storage w
  /\ showInstructions (st r.1) = showInstructions (st w)
  /\ showCodingSection (st r.1) = showCodingSection (st w)
  /\ mcqCompleted (st r.1) = mcqCompleted (st w)
  /\ currentSectionIndex (st r.1) = currentSectionIndex (st w)
  /\ currentQuestionIndex (st r.1) = currentQuestionIndex (st w)
  /\ answers (st r.1) = answers (st w).
Proof.
  assert (Hp : ByHandleSubmit ∈ pending (run flatTest 0 (mount flatTest None)
              (startInputs ++ [(1000%Z, ClickHeaderButton); (2000%Z, ClickSubmitFinal)])).1).
  { apply (bool_decide_unpack _). vm_compute. exact I. }
  assert (Hv : violations (st (run flatTest 0 (mount flatTest None)
              (startInputs ++ [(1000%Z, ClickHeaderButton); (2000%Z, ClickSubmitFinal)])).1) < 3
               \/ mcqCompleted (st (run flatTest 0 (mount flatTest None)
              (startInputs ++ [(1000%Z, ClickHeaderButton); (2000%Z, ClickSubmitFinal)])).1) = true).
  { left. vm_compute. lia. }
  split; [exact Hp|]. split; [exact Hv|].
  exact (handleSubmit_rejection flatTest 0 _ 3000%Z Hp Hv).
Defined.

(** ** Reachable sessions *)

Lemma mount_sessionInv test saved : sessionInv test (mount test saved).
Proof.
  unfold sessionInv, mount. destruct saved as [p|]; cbn; repeat split; intros; congruence.
Qed.

Ltac unfold_handlers :=
  unfold handleStartTest, onInterval, timerUpdater, handleAutoSubmit, handleSubmit,
    handleVisibilityChange, handleBeforeUnload, settle, handleAnswerSelect,
    handleNavigateToQuestion, handleMarkForReviewAndNext, handleSaveAndNext,
    handleMarkForReview, handleClearResponse, handleNextSection,
    violationEffect, violationCondition, autoSubmitTest,
    selectFirstCoding, withState in *.

(** Split the invariant on whether the instructions are still shown. *)
Ltac inv_cases H1 H2 r Hr1 Hr2 :=
  match type of H1 with
  | ?b = true -> _ =>
      destruct b;
      [ destruct (H1 eq_refl) as [? ?]
      | destruct (H2 eq_refl) as (r & -> & Hr1 & Hr2) ];
      clear H1 H2
  end.

Ltac inv_finish :=
  repeat split; intros; subst;
  try discriminate; try congruence; try (cbn in *; congruence);
  try (eexists; split; [reflexivity|]; split; [assumption|]; intros; auto; congruence);
  auto.

Lemma violationEffect_sessionInv test startTime now w :
  sessionInv test w -> sessionInv test (violationEffect test startTime now w).1.
Proof.
  unfold sessionInv. intros (H1 & H2 & H3 & H4).
  destruct w as [s tc sto pend]. unfold_handlers.
  destruct s as [si ? ? ? ? ? ? ? sub ? ssc scs mcq ? ? v]; cbn -[Nat.leb] in *.
  inv_cases H1 H2 r Hr1 Hr2;
    destruct (3 <=? v), sub, mcq, (codingAvailable test);
    cbn in *; repeat case_match; cbn in *; inv_finish.
Qed.

Lemma sessionInv_flags test w w' :
  flags (st w') = flags (st w) ->
  timerClosure w' = timerClosure w ->
  sessionInv test w -> sessionInv test w'.
Proof.
  unfold flags, sessionInv. intros [= -> -> -> -> ->] ->. tauto.
Qed.

Ltac flags_by_cases :=
  intros; unfold flags; unfold_handlers;
  repeat match goal with
         | w : Session |- _ => destruct w
         | s : State |- _ => destruct s
         end;
  cbn -[Nat.ltb Nat.leb]; repeat case_match; reflexivity.

Lemma handleAnswerSelect_flags qid a s : flags (handleAnswerSelect qid a s) = flags s.
Proof. flags_by_cases. Qed.

Lemma handleClearResponse_flags test s : flags (handleClearResponse test s) = flags s.
Proof. flags_by_cases. Qed.

Lemma handleSaveAndNext_flags test s : flags (handleSaveAndNext test s) = flags s.
Proof. flags_by_cases. Qed.

Lemma handleMarkForReview_flags test s : flags (handleMarkForReview test s) = flags s.
Proof. flags_by_cases. Qed.

Lemma handleMarkForReviewAndNext_flags test s :
  flags (handleMarkForReviewAndNext test s) = flags s.
Proof.
  unfold handleMarkForReviewAndNext.
  rewrite handleSaveAndNext_flags. apply handleMarkForReview_flags.
Qed.

Lemma handleNavigateToQuestion_flags test i s :
  flags (handleNavigateToQuestion test i s) = flags s.
Proof. flags_by_cases. Qed.

Lemma handleVisibilityChange_flags s : flags (handleVisibilityChange s).1 = flags s.
Proof. flags_by_cases. Qed.

Lemma handleBeforeUnload_st startTime w :
  st (handleBeforeUnload startTime w).1 = st w
  /\ timerClosure (handleBeforeUnload startTime w).1 = timerClosure w
  /\ pending (handleBeforeUnload startTime w).1 = pending w.
Proof. unfold handleBeforeUnload. case_match; cbn; auto. Qed.

Lemma handleStartTest_sessionInv test w :
  sessionInv test w ->
  showInstructions (st w) = true ->
  agreedToTerms (st w) = true ->
  sessionInv test (handleStartTest test w).1.
Proof.
  unfold sessionInv. intros (H1 & H2 & H3 & H4) Hi Ha.
  destruct (H1 Hi) as [Htc Hsub]. clear H1 H2.
  destruct w as [s tc sto pend]. unfold handleStartTest. cbn [st] in *.
  rewrite Ha. cbn [negb].
  destruct s as [si ? ? ? ? ? ? ? sub ? ssc scs mcq ? ? v]; cbn in *; subst.
  unfold selectFirstCoding.
  destruct (getCurrentSectionQuestions test _); cbn;
    destruct (codingAvailable test); cbn in *;
    repeat case_match; cbn in *;
    repeat split; intros; try discriminate; auto;
    try (eexists; split; [reflexivity|]; cbn; split; auto).
Qed.

Lemma onInterval_sessionInv test startTime now w :
  sessionInv test w ->
  sessionInv test (onInterval test startTime now w).1.
Proof.
  unfold sessionInv. intros (H1 & H2 & H3 & H4).
  destruct w as [s tc sto pend].
  destruct s as [si ? ? ? ? ? ? tl sub ? ssc scs mcq ? ? v].
  unfold onInterval, timerUpdater, handleAutoSubmit, handleSubmit, selectFirstCoding, withState.
  cbn -[Nat.leb] in *.
  inv_cases H1 H2 r Hr1 Hr2; [cbn; inv_finish|].
  rewrite Hr1. destruct (tl <=? 1); cbn; [|inv_finish].
  destruct (mcqCompleted r) eqn:Hm, (codingAvailable test) eqn:Hc; cbn;
    repeat case_match; cbn; inv_finish.
Qed.

Lemma settle_sessionInv test c ok w pend' :
  sessionInv test w ->
  sessionInv test
    (settle c ok {| st := st w; timerClosure := timerClosure w;
                    storage := storage w; pending := pend' |}).1.
Proof.
  unfold sessionInv. intros (H1 & H2 & H3 & H4).
  destruct w as [s tc sto pend].
  destruct s as [si ? ? ? ? ? ? tl sub ? ssc scs mcq ? ? v].
  cbn in *.
  inv_cases H1 H2 r Hr1 Hr2; destruct c, ok; cbn; inv_finish.
Qed.

Lemma handleNextSection_sessionInv test w :
  sessionInv test w ->
  sessionInv test (withState (fun _ => (handleNextSection test (st w)).1) w).
Proof.
  unfold sessionInv. intros (H1 & H2 & H3 & H4).
  destruct w as [s tc sto pend].
  destruct s as [si ? ? ? ? ? ? tl sub ? ssc scs mcq ? ? v].
  unfold handleNextSection, selectFirstCoding, withState.
  cbn -[Nat.ltb] in *.
  inv_cases H1 H2 r Hr1 Hr2;
    destruct (codingAvailable test) eqn:Hc;
    repeat case_match; cbn in *; inv_finish.
Qed.

Lemma enabled_view test w e :
  enabled test w e = true ->
  match e with
  | ChangeAgreed _ | ClickCancel => showInstructions (st w) = true
  | ClickStartTest => showInstructions (st w) = true /\ agreedToTerms (st w) = true
  | Tick | VisibilityHidden => showInstructions (st w) = false
  | BeforeUnload => True
  | SubmitSettled c _ => c ∈ pending w
  | ClickCodingSubmit | ClickCodingQuestion _ | CodingSubmitted _ _ =>
      showInstructions (st w) = false /\ showCodingSection (st w) = true
  | ClickCancelSubmit | ClickSubmitFinal =>
      showInstructions (st w) = false /\ showCodingSection (st w) = false
      /\ showSubmitConfirm (st w) = true /\ submitting (st w) = false
      /\ exists q, getCurrentQuestion test (st w) = Some q
  | _ =>
      showInstructions (st w) = false /\ showCodingSection (st w) = false
      /\ exists q, getCurrentQuestion test (st w) = Some q
  end.
Proof.
  unfold enabled, render.
  destruct (showInstructions (st w)), (showCodingSection (st w)),
    (getCurrentQuestion test (st w)) as [q|];
    destruct e; cbn; intros He; try discriminate; auto;
    try (apply bool_decide_eq_true in He; exact He);
    try (apply negb_true_iff in He; discriminate);
    try (repeat split; eauto; fail);
    apply andb_true_iff in He as [-> He]; apply negb_true_iff in He as ->;
    repeat split; eauto.
Qed.

Lemma handle_sessionInv test startTime now e w :
  sessionInv test w ->
  enabled test w e = true ->
  sessionInv test (handle test startTime now e w).1.
Proof.
  intros Hinv He. apply enabled_view in He.
  destruct e; cbn [handle].
  - eapply sessionInv_flags; [| |exact Hinv]; [flags_by_cases|reflexivity].
  - apply handleStartTest_sessionInv; tauto.
  - exact Hinv.
  - apply onInterval_sessionInv, Hinv.
  - destruct (handleVisibilityChange (st w)) as [s' eff] eqn:Hh.
    eapply sessionInv_flags; [| |exact Hinv]; [|reflexivity].
    cbn. change s' with (s', eff).1. rewrite <- Hh. apply handleVisibilityChange_flags.
  - destruct (handleBeforeUnload_st startTime w) as (Hs & Ht & _).
    eapply sessionInv_flags; [| |exact Hinv]; [rewrite Hs|rewrite Ht]; reflexivity.
  - destruct (getCurrentQuestion test (st w)); [|exact Hinv].
    eapply sessionInv_flags; [| |exact Hinv]; [|reflexivity].
    apply handleAnswerSelect_flags.
  - destruct (0 <? currentQuestionIndex (st w)); [|exact Hinv].
    eapply sessionInv_flags; [| |exact Hinv]; [|reflexivity].
    apply handleNavigateToQuestion_flags.
  - eapply sessionInv_flags; [| |exact Hinv]; [|reflexivity].
    apply handleMarkForReviewAndNext_flags.
  - eapply sessionInv_flags; [| |exact Hinv]; [|reflexivity].
    apply handleClearResponse_flags.
  - eapply sessionInv_flags; [| |exact Hinv]; [|reflexivity].
    apply handleSaveAndNext_flags.
  - eapply sessionInv_flags; [| |exact Hinv]; [|reflexivity].
    apply handleNavigateToQuestion_flags.
  - (* header button *)
    destruct He as (Hi & Hc & _). unfold sessionInv in *.
    destruct Hinv as (H1 & H2 & H3 & H4).
    destruct w as [s tc sto pend].
    destruct s as [si ? ? ? ? ? ? tl sub ? ssc scs mcq ? ? v].
    unfold selectFirstCoding, withState. cbn in *. subst.
    destruct (H2 eq_refl) as (r & -> & Hr1 & Hr2). clear H1 H2.
    destruct (codingAvailable test) eqn:Hca; repeat case_match; cbn; inv_finish.
  - eapply sessionInv_flags; [| |exact Hinv]; [flags_by_cases|reflexivity].
  - destruct (handleNextSection test (st w)) as [s' eff] eqn:Hh.
    change s' with (s', eff).1. rewrite <- Hh.
    apply handleNextSection_sessionInv, Hinv.
  - (* cancel *)
    destruct He as (Hi & Hc & Hd & Hs & _). unfold sessionInv in *.
    destruct Hinv as (H1 & H2 & H3 & H4).
    destruct w as [s tc sto pend].
    destruct s as [si ? ? ? ? ? ? tl sub ? ssc scs mcq ? ? v].
    cbn in *. subst. inv_finish.
  - (* submit final *)
    destruct He as (Hi & Hc & Hd & Hs & _). unfold sessionInv in *.
    destruct Hinv as (H1 & H2 & H3 & H4).
    destruct w as [s tc sto pend].
    destruct s as [si ? ? ? ? ? ? tl sub ? ssc scs mcq ? ? v].
    unfold handleSubmit. cbn in *. subst. cbn.
    destruct (H2 eq_refl) as (r & -> & Hr1 & Hr2). clear H1 H2.
    destruct (codingAvailable test) eqn:Hca.
    + specialize (H4 eq_refl eq_refl). discriminate.
    + inv_finish.
  - (* coding view submit *)
    destruct He as (Hi & Hc). unfold sessionInv in *.
    destruct Hinv as (H1 & H2 & H3 & H4).
    destruct w as [s tc sto pend].
    destruct s as [si ? ? ? ? ? ? tl sub ? ssc scs mcq ? ? v].
    cbn in *. subst. inv_finish.
  - destruct (codingQuestions test) as [cqs|]; [|exact Hinv].
    destruct (cqs !! index); [|exact Hinv].
    eapply sessionInv_flags; [| |exact Hinv]; [flags_by_cases|reflexivity].
  - eapply sessionInv_flags; [| |exact Hinv]; [flags_by_cases|reflexivity].
  - apply settle_sessionInv, Hinv.
Qed.

Lemma step_sessionInv test startTime w i :
  sessionInv test w -> sessionInv test (step test startTime w i).1.
Proof.
  intros Hinv. destruct i as [now e]. unfold step.
  destruct (enabled test w e) eqn:He.
  - pose proof (handle_sessionInv test startTime now e w Hinv He) as Hh.
    destruct (handle test startTime now e w) as [w1 eff1].
    pose proof (violationEffect_sessionInv test startTime now w1 Hh) as Hv.
    destruct (violationEffect test startTime now w1) as [w2 eff2]. exact Hv.
  - pose proof (violationEffect_sessionInv test startTime now w Hinv) as Hv.
    destruct (violationEffect test startTime now w) as [w2 eff2]. exact Hv.
Qed.

Lemma run_sessionInv test startTime w inputs :
  sessionInv test w -> sessionInv test (run test startTime w inputs).1.
Proof.
  revert w. induction inputs as [|i rest IH]; intros w Hinv; [exact Hinv|].
  cbn [run].
  pose proof (step_sessionInv test startTime w i Hinv) as Hs.
  destruct (step test startTime w i) as [w1 eff1].
  specialize (IH w1 Hs).
  destruct (run test startTime w1 rest) as [w2 eff2]. exact IH.
Qed.

Lemma enabled_Tick test w :
  enabled test w Tick = negb (showInstructions (st w)).
Proof. unfold enabled. destruct (render test (st w)); reflexivity. Qed.

Lemma enabled_VisibilityHidden test w :
  enabled test w VisibilityHidden = negb (showInstructions (st w)).
Proof. unfold enabled. destruct (render test (st w)); reflexivity. Qed.

Lemma violationEffect_idle test startTime now w :
  violationCondition (st w) = false ->
  violationEffect test startTime now w = (w, []).
Proof. unfold violationEffect. intros ->. reflexivity. Qed.

Lemma violationCondition_mcqCompleted s :
  mcqCompleted s = true -> violationCondition s = false.
Proof. unfold violationCondition. intros ->. apply andb_false_r. Qed.

(** The state after either forced transition, up to the fields the
    transition does not write. *)
Lemma enterCoding_fields test cq s :
  firstCoding test = Some cq ->
  let s' := selectFirstCoding test (setShowCodingSection true (setMcqCompleted true s)) in
  mcqCompleted s' = true
  /\ showCodingSection s' = true
  /\ selectedCodingQuestionId s' = codingId cq.
Proof.
  intros Hfc. unfold selectFirstCoding. rewrite Hfc. destruct s; cbn. auto.
Qed.

Lemma onInterval_expiry test startTime now w r :
  timerClosure w = Some r ->
  submitting r = false ->
  mcqCompleted r = false ->
  codingAvailable test = true ->
  timeLeft (st w) <= 1 ->
  onInterval test startTime now w =
  (withState (setTimeLeft (fun _ => 0))
     (withState (fun s => selectFirstCoding test
                            (setShowCodingSection true (setMcqCompleted true s))) w),
   [ConsoleLog LogTimeExpiredTransition]).
Proof.
  intros Htc Hs Hm Hca Hexp.
  unfold onInterval, handleAutoSubmit. rewrite Htc, timerUpdater_expired by exact Hexp.
  rewrite Hs, Hm, Hca. reflexivity.
Qed.

(** [cq._id || cq.questionId], read off the two fields: a non-empty
    [_id] is the value; without one ([undefined] or the empty string) the
    value is [questionId]. *)
Lemma codingId_fields cq :
  (forall id, cq_id cq = Some id -> id <> EmptyString -> codingId cq = Some id)
  /\ (cq_id cq = None \/ cq_id cq = Some EmptyString ->
      codingId cq = cq_questionId cq).
Proof.
  unfold codingId, or_string, truthy_string. split.
  - intros id -> Hne. destruct (String.eqb_spec id EmptyString); [contradiction|reflexivity].
  - intros [-> | ->]; reflexivity.
Qed.

(** C2. In every session reached from mounting (with or without a
    checkpoint) on a test with a non-empty coding section, once the test
    is running and while [mcqCompleted] is false: the tick on which the
    clock expires, and likewise the tab switch that brings the violation
    count to 3, set [mcqCompleted], show the coding section with the
    first coding question selected, and make no call to [onSubmit] (none
    is issued and none is left pending). The selection is the first
    coding question's [_id] when that is a non-empty string, and its
    [questionId] when [_id] is missing or empty. *)
Theorem expiry_or_violations_force_coding test startTime saved inputs now cq cqs :
  hasCodingSection test = true ->
  codingQuestions test = Some (cq :: cqs) ->
  let w := (run test startTime (mount test saved) inputs).1 in
  showInstructions (st w) = false ->
  mcqCompleted (st w) = false ->
  (timeLeft (st w) <= 1 ->
   let r := step test startTime w (now, Tick) in
   mcqCompleted (st r.1) = true
   /\ showCodingSection (st r.1) = true
   /\ (forall id, cq_id cq = Some id -> id <> EmptyString ->
       selectedCodingQuestionId (st r.1) = Some id)
   /\ (cq_id cq = None \/ cq_id cq = Some EmptyString ->
       selectedCodingQuestionId (st r.1) = cq_questionId cq)
   /\ submissions r.2 = []
   /\ pending r.1 = pending w)
  /\ (3 <= violations (st w) + 1 ->
      let r := step test startTime w (now, VisibilityHidden) in
      mcqCompleted (st r.1) = true
      /\ showCodingSection (st r.1) = true
      /\ (forall id, cq_id cq = Some id -> id <> EmptyString ->
          selectedCodingQuestionId (st r.1) = Some id)
      /\ (cq_id cq = None \/ cq_id cq = Some EmptyString ->
          selectedCodingQuestionId (st r.1) = cq_questionId cq)
      /\ submissions r.2 = []
      /\ pending r.1 = pending w).
Proof.
  intros Hhas Hcqs w Hi Hm.
  assert (Hca : codingAvailable test = true).
  { unfold codingAvailable. rewrite Hhas, Hcqs. reflexivity. }
  assert (Hfc : firstCoding test = Some cq).
  { unfold firstCoding. rewrite Hcqs. reflexivity. }
  pose proof (run_sessionInv test startTime (mount test saved) inputs
                (mount_sessionInv test saved)) as Hinv.
  fold w in Hinv. clearbody w.
  destruct Hinv as (_ & H2 & H3 & _).
  destruct (H2 Hi) as (r & Htc & Hr1 & Hr2).
  assert (Hrm : mcqCompleted r = false).
  { destruct (mcqCompleted r); [|reflexivity]. rewrite Hr2 in Hm; [discriminate|reflexivity]. }
  assert (Hsub : submitting (st w) = false).
  { destruct (submitting (st w)); [|reflexivity]. rewrite H3 in Hm; [discriminate|auto..]. }
  destruct (codingId_fields cq) as [Hid Hqid].
  split.
  - intros Hexp. unfold step.
    rewrite enabled_Tick, Hi. cbn [negb handle].
    rewrite (onInterval_expiry test startTime now w r Htc Hr1 Hrm Hca Hexp).
    destruct (enterCoding_fields test cq (st w) Hfc) as (E1 & E2 & E3).
    rewrite violationEffect_idle.
    + cbn. destruct (selectFirstCoding test _) eqn:Hs; cbn in *.
      rewrite E3. auto 10.
    + apply violationCondition_mcqCompleted. cbn.
      destruct (selectFirstCoding test _) eqn:Hs; cbn in *. auto.
  - intros Hv. unfold step.
    rewrite enabled_VisibilityHidden, Hi. cbn [negb handle].
    unfold handleVisibilityChange, violationEffect, violationCondition, withState. cbn [st].
    destruct w as [s tc sto pend]. cbn [st timerClosure pending storage] in *.
    destruct s as [si ? ? ? ? ? ? tl sub ? ssc scs mcq ? ? v]. cbn in Hi, Hm, Hsub, Hv. subst.
    cbn -[Nat.leb]. destruct (Nat.leb_spec 3 (v + 1)); [|lia]. cbn.
    unfold autoSubmitTest, selectFirstCoding, withState. rewrite Hca, Hfc. cbn.
    auto 10.
Qed.

Lemma expiry_or_violations_force_coding_witness :
  let w := (run codingTest 0 (mount codingTest None) lastSecondInputs).1 in
  let byClock := step codingTest 0 w (62000%Z, Tick) in
  let byViolation := step codingTest 0 w (62000%Z, VisibilityHidden) in
  hasCodingSection codingTest = true
  /\ codingQuestions codingTest = Some [mkCoding "c1"; mkCoding "c2"]
  /\ showInstructions (st w) = false
  /\ mcqCompleted (st w) = false
  /\ timeLeft (st w) <= 1
  /\ 3 <= violations (st w) + 1
  /\ (mcqCompleted (st byClock.1) = true
      /\ showCodingSection (st byClock.1) = true
      /\ selectedCodingQuestionId (st byClock.1) = Some "c1"
      /\ submissions byClock.2 = []
      /\ pending byClock.1 = pending w)
  /\ (mcqCompleted (st byViolation.1) = true
      /\ showCodingSection (st byViolation.1) = true
      /\ selectedCodingQuestionId (st byViolation.1) = Some "c1"
      /\ submissions byViolation.2 = []
      /\ pending byViolation.1 = pending w).
Proof.
  assert (Hi : showInstructions
                 (st (run codingTest 0 (mount codingTest None) lastSecondInputs).1) = false)
    by (vm_compute; reflexivity).
  assert (Hm : mcqCompleted
                 (st (run codingTest 0 (mount codingTest None) lastSecondInputs).1) = false)
    by (vm_compute; reflexivity).
  assert (Ht : timeLeft
                 (st (run codingTest 0 (mount codingTest None) lastSecondInputs).1) <= 1)
    by (vm_compute; lia).
  assert (Hv : 3 <= violations
                 (st (run codingTest 0 (mount codingTest None) lastSecondInputs).1) + 1)
    by (vm_compute; lia).
  assert (Hne : "c1" <> EmptyString) by discriminate.
  destruct (expiry_or_violations_force_coding codingTest 0 None lastSecondInputs 62000%Z
              (mkCoding "c1") [mkCoding "c2"] eq_refl eq_refl Hi Hm) as [Hclock Hviol].
  destruct (Hclock Ht) as (C1 & C2 & C3 & _ & C5 & C6).
  destruct (Hviol Hv) as (V1 & V2 & V3 & _ & V5 & V6).
  repeat (split; [first [reflexivity | assumption]|]).
  split.
  - exact (conj C1 (conj C2 (conj (C3 "c1" eq_refl Hne) (conj C5 C6)))).
  - exact (conj V1 (conj V2 (conj (V3 "c1" eq_refl Hne) (conj V5 V6)))).
Defined.

(** ** Answered questions are visited *)

Lemma getCurrentQuestion_ledger test s s' :
  ledger s' = ledger s -> getCurrentQuestion test s' = getCurrentQuestion test s.
Proof.
  unfold ledger, getCurrentQuestion, getCurrentSectionQuestions, getCurrentSection.
  intros [= _ -> -> _ _]. reflexivity.
Qed.

(** The question on screen depends on the position only. *)
Lemma getCurrentQuestion_ledger_pos test s s' :
  currentSectionIndex s' = currentSectionIndex s ->
  currentQuestionIndex s' = currentQuestionIndex s ->
  getCurrentQuestion test s' = getCurrentQuestion test s.
Proof.
  unfold getCurrentQuestion, getCurrentSectionQuestions, getCurrentSection.
  intros -> ->. reflexivity.
Qed.

Lemma ledgerInv_ledger test s s' :
  ledger s' = ledger s -> ledgerInv test s -> ledgerInv test s'.
Proof.
  intros Hl. unfold ledgerInv.
  rewrite (getCurrentQuestion_ledger test s s' Hl).
  unfold ledger in Hl. injection Hl as E1 E2 E3 E4 E5.
  rewrite E1, E3, E4, E5. tauto.
Qed.

Ltac ledger_by_cases :=
  intros; unfold ledger; unfold_handlers;
  repeat match goal with
         | w : Session |- _ => destruct w
         | s : State |- _ => destruct s
         end;
  cbn -[Nat.ltb Nat.leb]; repeat case_match; reflexivity.

Lemma mount_ledgerInv test : ledgerInv test (st (mount test None)).
Proof.
  unfold ledgerInv. cbn. repeat split; intros; try discriminate.
  rewrite lookup_empty in H. destruct H; discriminate.
Qed.

Lemma violationEffect_ledger test startTime now w :
  ledger (st (violationEffect test startTime now w).1) = ledger (st w).
Proof. ledger_by_cases. Qed.

Lemma handleStartTest_ledgerInv test w :
  showInstructions (st w) = true ->
  ledgerInv test (st w) -> ledgerInv test (st (handleStartTest test w).1).
Proof.
  intros Hi Hinv. pose proof Hinv as (H1 & H2 & _). destruct (H2 Hi) as [Ha Hq].
  destruct w as [s tc sto pend]. unfold handleStartTest. cbn [st] in *.
  destruct (agreedToTerms s); cbn [negb]; [|exact Hinv].
  clear Hinv.
  unfold ledgerInv, getCurrentQuestion.
  assert (Hqs : forall s', currentSectionIndex s' = currentSectionIndex s ->
              getCurrentSectionQuestions test s' = getCurrentSectionQuestions test s).
  { intros s' E. unfold getCurrentSectionQuestions, getCurrentSection. rewrite E. reflexivity. }
  destruct (getCurrentSectionQuestions test s) as [|firstQuestion qs] eqn:Hcur;
    cbn [st fst].
  - unfold selectFirstCoding.
    destruct s; cbn in *; subst.
    repeat case_match; cbn;
      (split; [exact H1|]; split; [intros; discriminate|];
       intros _ q Hq; rewrite Hqs in Hq by reflexivity; discriminate).
  - destruct s; cbn in *; subst.
    split; [intros qid Hs; rewrite lookup_empty in Hs; destruct Hs; discriminate|].
    split; [intros; discriminate|].
    intros _ q Hq. rewrite Hqs in Hq by reflexivity. cbn in Hq.
    simplify_eq. apply lookup_singleton_eq.
Qed.

(** Moving to a question and marking it visited keeps the invariant. *)
Lemma ledgerInv_visit test s s' q :
  ledgerInv test s ->
  showInstructions s' = false ->
  answers s' = answers s ->
  visitedQuestions s' = <[q_id q := true]> (visitedQuestions s) ->
  (forall q', getCurrentQuestion test s' = Some q' -> q' = q) ->
  ledgerInv test s'.
Proof.
  intros (H1 & _ & _) Hi Ha Hv Hq. unfold ledgerInv.
  rewrite Hi, Ha, Hv. split; [|split; [discriminate|]].
  - intros qid Hs. destruct (decide (q_id q = qid)) as [<-|Hne].
    + apply lookup_insert_eq.
    + rewrite lookup_insert_ne by exact Hne. apply H1, Hs.
  - intros _ q' Hq'. rewrite (Hq q' Hq'). apply lookup_insert_eq.
Qed.

(** Moving to a position without a question keeps the invariant. *)
Lemma ledgerInv_nowhere test s s' :
  ledgerInv test s ->
  showInstructions s' = false ->
  answers s' = answers s ->
  visitedQuestions s' = visitedQuestions s ->
  getCurrentQuestion test s' = None ->
  ledgerInv test s'.
Proof.
  intros (H1 & _ & _) Hi Ha Hv Hq. unfold ledgerInv.
  rewrite Hi, Ha, Hv, Hq. split; [exact H1|]. split; intros; discriminate.
Qed.

Lemma handleAnswerSelect_ledgerInv test s q a :
  showInstructions s = false ->
  getCurrentQuestion test s = Some q ->
  ledgerInv test s -> ledgerInv test (handleAnswerSelect (q_id q) a s).
Proof.
  intros Hi Hq (H1 & H2 & H3). pose proof (H3 Hi q Hq) as Hvis.
  unfold ledgerInv.
  assert (E : getCurrentQuestion test (handleAnswerSelect (q_id q) a s)
              = getCurrentQuestion test s)
    by (apply getCurrentQuestion_ledger_pos; destruct s; reflexivity).
  rewrite E. clear E.
  destruct s; cbn in *; subst.
  split; [|split; [discriminate|exact H3]].
  intros qid Hs. destruct (decide (q_id q = qid)) as [<-|Hne]; [exact Hvis|].
  rewrite lookup_insert_ne in Hs by exact Hne. apply H1, Hs.
Qed.

Lemma handleClearResponse_ledgerInv test s :
  showInstructions s = false ->
  ledgerInv test s -> ledgerInv test (handleClearResponse test s).
Proof.
  intros Hi Hinv. pose proof Hinv as (H1 & H2 & H3). unfold handleClearResponse.
  destruct (getCurrentQuestion test s) as [q|] eqn:Hq; [|exact Hinv].
  clear Hinv.
  unfold ledgerInv.
  rewrite (getCurrentQuestion_ledger_pos test s) by (destruct s; reflexivity).
  rewrite Hq.
  destruct s; cbn in *; subst.
  split; [|split; [discriminate|exact H3]].
  intros qid [v Hs]. apply lookup_delete_Some in Hs as [_ Hs]. apply H1. eauto.
Qed.

Lemma getCurrentSectionQuestions_pos test s s' :
  currentSectionIndex s' = currentSectionIndex s ->
  getCurrentSectionQuestions test s' = getCurrentSectionQuestions test s.
Proof.
  unfold getCurrentSectionQuestions, getCurrentSection. intros ->. reflexivity.
Qed.

Lemma handleNavigateToQuestion_ledgerInv test index s :
  showInstructions s = false ->
  ledgerInv test s -> ledgerInv test (handleNavigateToQuestion test index s).
Proof.
  intros Hi Hinv. unfold handleNavigateToQuestion.
  destruct (getCurrentSectionQuestions test s !! index) as [q|] eqn:Hq.
  - apply (ledgerInv_visit test s _ q Hinv); try (destruct s; cbn in *; congruence).
    intros q'. unfold getCurrentQuestion.
    rewrite (getCurrentSectionQuestions_pos test s) by (destruct s; reflexivity).
    replace (currentQuestionIndex _) with index by (destruct s; reflexivity).
    congruence.
  - apply (ledgerInv_nowhere test s _ Hinv); try (destruct s; cbn in *; congruence).
    unfold getCurrentQuestion.
    rewrite (getCurrentSectionQuestions_pos test s) by (destruct s; reflexivity).
    replace (currentQuestionIndex _) with index by (destruct s; reflexivity).
    exact Hq.
Qed.

Lemma handleSaveAndNext_ledgerInv test s :
  showInstructions s = false ->
  ledgerInv test s -> ledgerInv test (handleSaveAndNext test s).
Proof.
  intros Hi Hinv. unfold handleSaveAndNext.
  destruct (currentQuestionIndex s + 1 <? length (getCurrentSectionQuestions test s)).
  - exact (handleNavigateToQuestion_ledgerInv test (currentQuestionIndex s + 1) s Hi Hinv).
  - eapply ledgerInv_ledger; [|exact Hinv]. destruct s; reflexivity.
Qed.

Lemma handleMarkForReview_ledger test s :
  ledger (handleMarkForReview test s) = ledger s.
Proof. ledger_by_cases. Qed.

Lemma handleMarkForReviewAndNext_ledgerInv test s :
  showInstructions s = false ->
  ledgerInv test s -> ledgerInv test (handleMarkForReviewAndNext test s).
Proof.
  intros Hi Hinv. unfold handleMarkForReviewAndNext.
  pose proof (handleMarkForReview_ledger test s) as Hl.
  apply handleSaveAndNext_ledgerInv.
  - unfold ledger in Hl. injection Hl as -> _ _ _ _. exact Hi.
  - eapply ledgerInv_ledger; [exact Hl|exact Hinv].
Qed.

Lemma handleNextSection_ledgerInv test s :
  showInstructions s = false ->
  ledgerInv test s -> ledgerInv test (handleNextSection test s).1.
Proof.
  intros Hi Hinv. unfold handleNextSection.
  destruct (sections test) as [secs|] eqn:Hsecs.
  2:{ cbn. destruct (codingAvailable test); cbn;
      (eapply ledgerInv_ledger; [|exact Hinv]); ledger_by_cases. }
  destruct (hasSections test) eqn:Hhas; cbn [andb].
  2:{ destruct (codingAvailable test); cbn;
      (eapply ledgerInv_ledger; [|exact Hinv]); ledger_by_cases. }
  destruct (Nat.ltb_spec (currentSectionIndex s + 1) (length secs)) as [Hlt|Hge].
  2:{ destruct (codingAvailable test); cbn;
      (eapply ledgerInv_ledger; [|exact Hinv]); ledger_by_cases. }
  destruct (lookup_lt_is_Some_2 secs _ Hlt) as [sec Hsec].
  rewrite Hsec. cbn [from_option].
  assert (Hcur : forall s', currentSectionIndex s' = currentSectionIndex s + 1 ->
                 currentQuestionIndex s' = 0 ->
                 getCurrentQuestion test s' = head (questions sec)).
  { intros s' E1 E2.
    unfold getCurrentQuestion, getCurrentSectionQuestions, getCurrentSection.
    rewrite Hhas, Hsecs, E1, E2, Hsec. destruct (questions sec); reflexivity. }
  destruct (head (questions sec)) as [q|] eqn:Hhead; cbn [fst].
  - apply (ledgerInv_visit test s _ q Hinv); try (destruct s; cbn in *; congruence).
    intros q'. rewrite Hcur by (destruct s; reflexivity). congruence.
  - apply (ledgerInv_nowhere test s _ Hinv); try (destruct s; cbn in *; congruence).
    rewrite Hcur by (destruct s; reflexivity). reflexivity.
Qed.

Lemma onInterval_ledger test startTime now w :
  ledger (st (onInterval test startTime now w).1) = ledger (st w).
Proof.
  unfold onInterval. destruct (timerClosure w) as [r|]; [|reflexivity].
  destruct (timerUpdater (timeLeft (st w))) as [next [|]].
  - unfold handleAutoSubmit, handleSubmit, selectFirstCoding.
    destruct (submitting r), (negb (mcqCompleted r) && codingAvailable test),
      (firstCoding test); destruct w as [[] ? ? ?]; reflexivity.
  - destruct w as [[] ? ? ?]; reflexivity.
Qed.

Lemma settle_ledger c ok w :
  ledger (st (settle c ok w).1) = ledger (st w).
Proof. destruct c, ok, w as [[] ? ? ?]; reflexivity. Qed.

Lemma handle_ledgerInv test startTime now e w :
  enabled test w e = true ->
  ledgerInv test (st w) ->
  ledgerInv test (st (handle test startTime now e w).1).
Proof.
  intros He Hinv. apply enabled_view in He.
  destruct e; cbn [handle].
  - eapply ledgerInv_ledger; [|exact Hinv]. ledger_by_cases.
  - apply handleStartTest_ledgerInv; tauto.
  - exact Hinv.
  - eapply ledgerInv_ledger; [|exact Hinv]. apply onInterval_ledger.
  - eapply ledgerInv_ledger; [|exact Hinv]. ledger_by_cases.
  - eapply ledgerInv_ledger; [|exact Hinv]. ledger_by_cases.
  - destruct He as (Hi & _ & _).
    destruct (getCurrentQuestion test (st w)) as [q|] eqn:Hq; [|exact Hinv].
    apply handleAnswerSelect_ledgerInv; assumption.
  - destruct He as (Hi & _ & _).
    destruct (0 <? currentQuestionIndex (st w)); [|exact Hinv].
    apply handleNavigateToQuestion_ledgerInv; assumption.
  - destruct He as (Hi & _ & _).
    apply handleMarkForReviewAndNext_ledgerInv; assumption.
  - destruct He as (Hi & _ & _).
    apply handleClearResponse_ledgerInv; assumption.
  - destruct He as (Hi & _ & _).
    apply handleSaveAndNext_ledgerInv; assumption.
  - destruct He as (Hi & _ & _).
    apply handleNavigateToQuestion_ledgerInv; assumption.
  - eapply ledgerInv_ledger; [|exact Hinv]. ledger_by_cases.
  - eapply ledgerInv_ledger; [|exact Hinv]. ledger_by_cases.
  - destruct He as (Hi & _ & _).
    destruct (handleNextSection test (st w)) as [s' eff] eqn:Hh.
    change s' with (s', eff).1. rewrite <- Hh.
    apply handleNextSection_ledgerInv; assumption.
  - eapply ledgerInv_ledger; [|exact Hinv]. ledger_by_cases.
  - eapply ledgerInv_ledger; [|exact Hinv]. ledger_by_cases.
  - eapply ledgerInv_ledger; [|exact Hinv]. ledger_by_cases.
  - eapply ledgerInv_ledger; [|exact Hinv]. ledger_by_cases.
  - eapply ledgerInv_ledger; [|exact Hinv]. ledger_by_cases.
  - eapply ledgerInv_ledger; [|exact Hinv]. rewrite settle_ledger. reflexivity.
Qed.

Lemma step_ledgerInv test startTime w i :
  ledgerInv test (st w) -> ledgerInv test (st (step test startTime w i).1).
Proof.
  intros Hinv. destruct i as [now e]. unfold step.
  destruct (enabled test w e) eqn:He.
  - pose proof (handle_ledgerInv test startTime now e w He Hinv) as Hh.
    destruct (handle test startTime now e w) as [w1 eff1].
    pose proof (violationEffect_ledger test startTime now w1) as Hv.
    destruct (violationEffect test startTime now w1) as [w2 eff2].
    eapply ledgerInv_ledger; [exact Hv|exact Hh].
  - pose proof (violationEffect_ledger test startTime now w) as Hv.
    destruct (violationEffect test startTime now w) as [w2 eff2].
    eapply ledgerInv_ledger; [exact Hv|exact Hinv].
Qed.

(** X26. In a session mounted without a checkpoint, every key of
    [answers] is a key of [visitedQuestions], at every point of every
    run. *)
Lemma fresh_session_answers_visited test startTime inputs qid :
  let s := st (run test startTime (mount test None) inputs).1 in
  is_Some (answers s !! qid) -> visitedQuestions s !! qid = Some true.
Proof.
  cbn zeta.
  assert (H : forall w, ledgerInv test (st w) ->
                        ledgerInv test (st (run test startTime w inputs).1)).
  { induction inputs as [|i rest IH]; intros w Hinv; [exact Hinv|].
    cbn [run].
    pose proof (step_ledgerInv test startTime w i Hinv) as Hs.
    destruct (step test startTime w i) as [w1 eff1].
    specialize (IH w1 Hs).
    destruct (run test startTime w1 rest) as [w2 eff2]. exact IH. }
  destruct (H (mount test None) (mount_ledgerInv test)) as (H1 & _).
  apply H1.
Qed.

(** C9. In a first visit to [flatTest] the user goes to the second
    question, answers it and leaves the page, which saves a checkpoint.
    Mounting again restores the answer and the two visited questions;
    [handleStartTest] then sets [visitedQuestions] to the first question
    alone. The session goes on at the second question, which is answered
    and on screen but not visited. *)
Theorem start_overwrites_restored_visited :
  let firstVisit := (run flatTest 0 (mount flatTest None) answerSecondAndUnloadInputs).1 in
  let mounted := mount flatTest (storage firstVisit) in
  let started := (run flatTest 0 mounted startInputs).1 in
  is_Some (storage firstVisit)
  /\ visitedQuestions (st mounted) !! "q2" = Some true
  /\ answers (st started) !! "q2" = Some "B"
  /\ visitedQuestions (st started) !! "q2" = None
  /\ visitedQuestions (st started) = {[ "q1" := true ]}
  /\ getCurrentQuestion flatTest (st started) = Some (mkQuestion "q2").
Proof.
  vm_compute. split; [eexists; reflexivity|]. repeat split; reflexivity.
Qed.

(** * Further properties *)

(** ** Palette and legend *)

(** X1. The numbers of the legend against the colours of the palette,
    for the questions of the current section: "Answered" is the number of
    green buttons and "Marked for Review" the number of purple ones;
    "Not Answered" is the number of red buttons plus the visited,
    unanswered questions that are marked (drawn purple), and "Not
    Visited" is the number of gray buttons plus the unvisited questions
    that are answered or marked. *)
Theorem legend_counts_against_palette test s :
  let qs := getCurrentSectionQuestions test s in
  let c := getSectionCounts test s in
  answered c = paletteCount s qs "bg-green-500 text-white"
  /\ marked c = paletteCount s qs "bg-purple-500 text-white"
  /\ notAnswered c =
       paletteCount s qs "bg-red-500 text-white"
       + length (List.filter
                   (fun q => negb (isAnswered s q) && isVisited s q && isMarked s q) qs)
  /\ notVisited c =
       paletteCount s qs "bg-gray-300 text-gray-700"
       + length (List.filter
                   (fun q => negb (isVisited s q) && (isAnswered s q || isMarked s q)) qs).
Proof.
  cbn zeta. unfold getSectionCounts, paletteCount, getQuestionStatus.
  cbn [answered notAnswered marked notVisited].
  induction (getCurrentSectionQuestions test s) as [|q qs IH]; [cbn; auto|].
  destruct IH as (IH1 & IH2 & IH3 & IH4).
  cbn [List.filter].
  destruct (isAnswered s q), (isMarked s q), (isVisited s q);
    cbn [negb andb orb getStatusColor String.eqb Ascii.eqb Bool.eqb length];
    cbn; rewrite ?IH1, ?IH2, ?IH3, ?IH4; repeat split; lia.
Qed.

(** ** Answer ledger *)

Lemma isMarked_insert s f q :
  isMarked (setMarkedForReview f s) q = truthy_bool (f (markedForReview s) !! q_id q).
Proof. destruct s; reflexivity. Qed.

(** X2. Clearing the response of the question on screen right after
    answering it leaves that question without answer and without review
    mark of its own; when its id does not name a member of
    [Object.prototype] it is then shown as not answered (or not visited
    if it never was); the status of every other question is as it was
    before the answer. *)
Theorem clear_after_select test s q a :
  getCurrentQuestion test s = Some q ->
  let s' := handleClearResponse test (handleAnswerSelect (q_id q) a s) in
  answers s' !! q_id q = None
  /\ markedForReview s' !! q_id q = None
  /\ (inheritedKey (q_id q) = false ->
      getQuestionStatus s' q = (if isVisited s q then NotAnswered else NotVisited))
  /\ (forall q', q_id q' <> q_id q -> getQuestionStatus s' q' = getQuestionStatus s q').
Proof.
  intros Hq. cbn zeta. unfold handleClearResponse.
  rewrite (getCurrentQuestion_ledger_pos test s) by (destruct s; reflexivity).
  rewrite Hq.
  unfold getQuestionStatus, isAnswered, isMarked, isVisited, handleAnswerSelect.
  destruct s; cbn.
  rewrite !lookup_delete_eq. cbn.
  repeat split.
  intros q' Hne.
  rewrite !lookup_delete_ne by congruence.
  rewrite lookup_insert_ne by congruence. reflexivity.
Qed.

Lemma clear_after_select_witness :
  let s := st (run flatTest 0 (mount flatTest None) startInputs).1 in
  let q := mkQuestion "q1" in
  let s' := handleClearResponse flatTest (handleAnswerSelect (q_id q) "C" s) in
  getCurrentQuestion flatTest s = Some q
  /\ inheritedKey (q_id q) = false
  /\ answers s' !! q_id q = None
  /\ markedForReview s' !! q_id q = None
  /\ getQuestionStatus s' q = NotAnswered
  /\ (forall q', q_id q' <> q_id q -> getQuestionStatus s' q' = getQuestionStatus s q').
Proof.
  assert (Hq : getCurrentQuestion flatTest
                 (st (run flatTest 0 (mount flatTest None) startInputs).1)
               = Some (mkQuestion "q1")) by (vm_compute; reflexivity).
  destruct (clear_after_select flatTest _ (mkQuestion "q1") "C" Hq) as (A & M & S & O).
  split; [exact Hq|]. split; [reflexivity|].
  split; [exact A|]. split; [exact M|]. split; [|exact O].
  rewrite (S eq_refl). vm_compute. reflexivity.
Defined.

(** X3. "Mark for review" is a toggle: one call flips the review flag
    of the question on screen and of no other question, and two calls
    give every question the status it had. *)
Theorem mark_for_review_toggles test s q :
  getCurrentQuestion test s = Some q ->
  isMarked (handleMarkForReview test s) q = negb (isMarked s q)
  /\ (forall q', q_id q' <> q_id q ->
        isMarked (handleMarkForReview test s) q' = isMarked s q')
  /\ (forall q', getQuestionStatus (handleMarkForReview test (handleMarkForReview test s)) q'
                 = getQuestionStatus s q').
Proof.
  intros Hq.
  assert (Hq' : getCurrentQuestion test (handleMarkForReview test s) = Some q).
  { rewrite <- Hq. apply getCurrentQuestion_ledger_pos;
      unfold handleMarkForReview; rewrite Hq; destruct s; reflexivity. }
  split; [|split].
  - unfold handleMarkForReview. rewrite Hq, isMarked_insert, lookup_insert_eq. reflexivity.
  - intros q' Hne. unfold handleMarkForReview.
    rewrite Hq, isMarked_insert, lookup_insert_ne by congruence. reflexivity.
  - intros q'. unfold handleMarkForReview at 1. rewrite Hq'.
    unfold handleMarkForReview. rewrite Hq.
    unfold getQuestionStatus, isAnswered, isMarked, isVisited.
    destruct s; cbn.
    destruct (decide (q_id q = q_id q')) as [E|Hne].
    + rewrite E, !lookup_insert_eq. cbn. rewrite negb_involutive. reflexivity.
    + rewrite !lookup_insert_ne by exact Hne. reflexivity.
Qed.

Lemma mark_for_review_toggles_witness :
  let s := st (run flatTest 0 (mount flatTest None) startInputs).1 in
  let q := mkQuestion "q1" in
  getCurrentQuestion flatTest s = Some q
  /\ isMarked (handleMarkForReview flatTest s) q = negb (isMarked s q)
  /\ (forall q', q_id q' <> q_id q ->
        isMarked (handleMarkForReview flatTest s) q' = isMarked s q')
  /\ (forall q', getQuestionStatus
                   (handleMarkForReview flatTest (handleMarkForReview flatTest s)) q'
                 = getQuestionStatus s q').
Proof.
  split; [vm_compute; reflexivity|].
  apply (mark_for_review_toggles flatTest _ (mkQuestion "q1")). vm_compute. reflexivity.
Defined.

(** ** Counters and phase flags over a run *)

Lemma advances_refl s : advances s s.
Proof. unfold advances. repeat split; auto. Qed.

Lemma advances_trans s1 s2 s3 : advances s1 s2 -> advances s2 s3 -> advances s1 s3.
Proof.
  unfold advances. intros (A1 & A2 & A3 & A4 & A5 & A6) (B1 & B2 & B3 & B4 & B5 & B6).
  repeat split; auto; try lia. etrans; eassumption.
Qed.

Ltac advances_finish :=
  unfold advances; cbn -[Nat.leb Nat.ltb];
  repeat split; intros; try lia; try congruence; try reflexivity;
  try (apply prefix_app_r; reflexivity).

Lemma violationEffect_advances test startTime now w :
  advances (st w) (st (violationEffect test startTime now w).1).
Proof.
  unfold violationEffect, autoSubmitTest, selectFirstCoding, withState.
  destruct w as [[] tc sto pend]; cbn -[Nat.leb].
  repeat case_match; advances_finish.
Qed.

Lemma onInterval_advances test startTime now w :
  advances (st w) (st (onInterval test startTime now w).1).
Proof.
  unfold onInterval. destruct (timerClosure w) as [r|]; [|apply advances_refl].
  unfold timerUpdater, handleAutoSubmit, handleSubmit, selectFirstCoding, withState.
  destruct w as [[] tc sto pend]; cbn -[Nat.leb].
  repeat case_match; simplify_eq; advances_finish.
Qed.

Lemma handle_advances test startTime now e w :
  advances (st w) (st (handle test startTime now e w).1).
Proof.
  destruct e; cbn [handle]; try apply onInterval_advances;
    unfold handleStartTest, handleSubmit, handleVisibilityChange, handleBeforeUnload,
      settle, handleAnswerSelect, handleNavigateToQuestion, handleMarkForReviewAndNext,
      handleSaveAndNext, handleMarkForReview, handleClearResponse, handleNextSection,
      selectFirstCoding, withState;
    destruct w as [s tc sto pend]; cbn -[Nat.leb Nat.ltb];
    repeat case_match; simplify_eq; destruct s; advances_finish.
Qed.

Lemma step_advances test startTime w i :
  advances (st w) (st (step test startTime w i).1).
Proof.
  destruct i as [now e]. unfold step.
  destruct (enabled test w e).
  - pose proof (handle_advances test startTime now e w) as Hh.
    destruct (handle test startTime now e w) as [w1 eff1].
    pose proof (violationEffect_advances test startTime now w1) as Hv.
    destruct (violationEffect test startTime now w1) as [w2 eff2].
    exact (advances_trans _ _ _ Hh Hv).
  - pose proof (violationEffect_advances test startTime now w) as Hv.
    destruct (violationEffect test startTime now w) as [w2 eff2]. exact Hv.
Qed.

Lemma run_advances test startTime w inputs :
  advances (st w) (st (run test startTime w inputs).1).
Proof.
  revert w. induction inputs as [|i rest IH]; intros w; [apply advances_refl|].
  cbn [run].
  pose proof (step_advances test startTime w i) as Hs.
  destruct (step test startTime w i) as [w1 eff1].
  specialize (IH w1).
  destruct (run test startTime w1 rest) as [w2 eff2].
  exact (advances_trans _ _ _ Hs IH).
Qed.

(** X4. Over any sequence of events the violation count never goes
    down; one tab switch adds exactly one while the test is running and
    nothing while the instructions are shown. *)
Theorem violations_only_grow test startTime w inputs now :
  violations (st w) <= violations (st (run test startTime w inputs).1)
  /\ violations (st (step test startTime w (now, VisibilityHidden)).1)
     = violations (st w) + (if showInstructions (st w) then 0 else 1).
Proof.
  split; [apply run_advances|].
  unfold step. rewrite enabled_VisibilityHidden.
  unfold violationEffect, autoSubmitTest, selectFirstCoding, withState.
  destruct w as [[] tc sto pend]; cbn -[Nat.leb].
  destruct showInstructions0; cbn -[Nat.leb]; repeat case_match; simplify_eq; cbn; lia.
Qed.

(** X5. Over any sequence of events the remaining time never goes up. *)
Theorem timeLeft_never_increases test startTime w inputs :
  timeLeft (st (run test startTime w inputs).1) <= timeLeft (st w).
Proof. apply run_advances. Qed.

(** X6. In every session reached from mounting, a tick of the running
    clock takes exactly one second off the remaining time, and leaves it
    at zero once it is there. *)
Theorem tick_takes_one_second test startTime saved inputs now :
  let w := (run test startTime (mount test saved) inputs).1 in
  showInstructions (st w) = false ->
  timeLeft (st (step test startTime w (now, Tick)).1) = timeLeft (st w) - 1.
Proof.
  intros w Hi.
  pose proof (run_sessionInv test startTime (mount test saved) inputs
                (mount_sessionInv test saved)) as Hinv.
  fold w in Hinv. clearbody w.
  destruct Hinv as (_ & H2 & _). destruct (H2 Hi) as (r & Htc & _).
  unfold step. rewrite enabled_Tick, Hi. cbn [negb handle].
  unfold onInterval. rewrite Htc. unfold timerUpdater.
  assert (Hv : forall w', timeLeft (st (violationEffect test startTime now w').1)
                          = timeLeft (st w')).
  { intros w'. unfold violationEffect, autoSubmitTest, selectFirstCoding, withState.
    destruct w' as [[] ? ? ?]; cbn -[Nat.leb]. repeat case_match; reflexivity. }
  destruct (Nat.leb_spec (timeLeft (st w)) 1) as [Hle|Hgt].
  - destruct (handleAutoSubmit test startTime r now w) as [w1 eff] eqn:Hh.
    specialize (Hv (withState (setTimeLeft (fun _ => 0)) w1)).
    destruct (violationEffect test startTime now _) as [w2 eff2].
    cbn in Hv |- *. rewrite Hv. destruct (st w1); cbn. lia.
  - specialize (Hv (withState (setTimeLeft (fun _ => timeLeft (st w) - 1)) w)).
    destruct (violationEffect test startTime now _) as [w2 eff2].
    cbn in Hv |- *. rewrite Hv. destruct (st w); cbn. lia.
Qed.

Lemma tick_takes_one_second_witness :
  let w := (run flatTest 0 (mount flatTest None) (tickInputs 5)).1 in
  showInstructions (st w) = false
  /\ timeLeft (st w) = 55
  /\ timeLeft (st (step flatTest 0 w (6000%Z, Tick)).1) = timeLeft (st w) - 1.
Proof.
  split; [vm_compute; reflexivity|]. split; [vm_compute; reflexivity|].
  apply (tick_takes_one_second flatTest 0 None (tickInputs 5) 6000%Z).
  vm_compute. reflexivity.
Defined.

(** X7. The phase moves one way: over any sequence of events,
    [mcqCompleted] and [showCodingSection] stay true once true, and the
    instructions do not come back once the test has started. *)
Theorem phase_flags_one_way test startTime w inputs :
  let s' := st (run test startTime w inputs).1 in
  (mcqCompleted (st w) = true -> mcqCompleted s' = true)
  /\ (showCodingSection (st w) = true -> showCodingSection s' = true)
  /\ (showInstructions (st w) = false -> showInstructions s' = false).
Proof.
  destruct (run_advances test startTime w inputs) as (_ & _ & H3 & H4 & H5 & _).
  auto.
Qed.

(** X8. Coding submissions are only ever appended: over any sequence of
    events the list before is a prefix of the list after, and a reported
    submission is added at the end. *)
Theorem codingSubmissions_append_only test startTime w inputs now id points :
  codingSubmissions (st w)
    `prefix_of` codingSubmissions (st (run test startTime w inputs).1)
  /\ codingSubmissions (st (step test startTime w (now, CodingSubmitted id points)).1)
     = codingSubmissions (st w)
       ++ (if enabled test w (CodingSubmitted id points)
           then [{| submissionId := id; score := points |}] else []).
Proof.
  split; [apply run_advances|].
  unfold step, violationEffect, autoSubmitTest, selectFirstCoding, withState.
  destruct (enabled test w (CodingSubmitted id points));
    destruct w as [[] tc sto pend]; cbn -[Nat.leb];
    repeat case_match; simplify_eq; cbn; rewrite ?app_nil_r; reflexivity.
Qed.

(** ** The coding view *)

Lemma mount_codingInv test saved : codingInv (st (mount test saved)).
Proof. unfold codingInv, mount. destruct saved; cbn; discriminate. Qed.

Lemma violationEffect_codingInv test startTime now w :
  codingInv (st w) -> codingInv (st (violationEffect test startTime now w).1).
Proof.
  unfold codingInv, violationEffect, violationCondition, autoSubmitTest,
    selectFirstCoding, withState.
  destruct w as [[si ? ? ? ? ? ? ? sub ? ? scs mcq ? ? v] tc sto pend]; cbn -[Nat.leb].
  intros H. destruct si, scs, mcq, sub, (3 <=? v); cbn in *;
    repeat case_match; cbn; intros; auto; try discriminate;
    try (destruct H; [reflexivity|]; discriminate).
Qed.

Lemma handle_codingInv test startTime now e w :
  enabled test w e = true ->
  codingInv (st w) -> codingInv (st (handle test startTime now e w).1).
Proof.
  intros He Hinv. apply enabled_view in He.
  assert (Hadv := handle_advances test startTime now e w).
  destruct Hadv as (_ & _ & A3 & A4 & A5 & _).
  unfold codingInv in *. intros Hc'.
  destruct (showCodingSection (st w)) eqn:Hc.
  { destruct (Hinv eq_refl) as [Hi Hm]. split; auto. }
  clear Hinv A4.
  destruct e; cbn [handle] in *;
    unfold handleStartTest, onInterval, timerUpdater, handleAutoSubmit, handleSubmit,
      handleVisibilityChange, handleBeforeUnload, settle, handleAnswerSelect,
      handleNavigateToQuestion, handleMarkForReviewAndNext, handleSaveAndNext,
      handleMarkForReview, handleClearResponse, handleNextSection,
      selectFirstCoding, withState in *;
    destruct w as [[si ? ? ? ? ? ? ? sub ? ? scs mcq ? ? v] tc sto pend];
    cbn -[Nat.leb Nat.ltb] in *; subst;
    repeat (case_match; simplify_eq; cbn -[Nat.leb Nat.ltb] in * );
    try discriminate; try (split; reflexivity); try tauto;
    try (destruct He as (? & ? & _); simplify_eq; split; reflexivity);
    try (destruct He as (? & ?); simplify_eq; split; reflexivity).
Qed.

Lemma step_codingInv test startTime w i :
  codingInv (st w) -> codingInv (st (step test startTime w i).1).
Proof.
  intros Hinv. destruct i as [now e]. unfold step.
  destruct (enabled test w e) eqn:He.
  - pose proof (handle_codingInv test startTime now e w He Hinv) as Hh.
    destruct (handle test startTime now e w) as [w1 eff1].
    pose proof (violationEffect_codingInv test startTime now w1 Hh) as Hv.
    destruct (violationEffect test startTime now w1) as [w2 eff2]. exact Hv.
  - pose proof (violationEffect_codingInv test startTime now w Hinv) as Hv.
    destruct (violationEffect test startTime now w) as [w2 eff2]. exact Hv.
Qed.

Lemma run_codingInv test startTime w inputs :
  codingInv (st w) -> codingInv (st (run test startTime w inputs).1).
Proof.
  revert w. induction inputs as [|i rest IH]; intros w Hinv; [exact Hinv|].
  cbn [run].
  pose proof (step_codingInv test startTime w i Hinv) as Hs.
  destruct (step test startTime w i) as [w1 eff1].
  specialize (IH w1 Hs).
  destruct (run test startTime w1 rest) as [w2 eff2]. exact IH.
Qed.

Lemma submissions_app eff1 eff2 :
  submissions (eff1 ++ eff2) = submissions eff1 ++ submissions eff2.
Proof. unfold submissions. apply List.filter_app. Qed.

Lemma render_coding test s :
  showInstructions s = false -> showCodingSection s = true ->
  render test s = ViewCoding.
Proof. unfold render. intros -> ->. reflexivity. Qed.

(** What the controls of the coding view do: nothing reaches [onSubmit]. *)
Lemma handle_coding_view test startTime now e w :
  showInstructions (st w) = false ->
  showCodingSection (st w) = true ->
  notTick (now, e) ->
  enabled test w e = true ->
  submissions (handle test startTime now e w).2 = [].
Proof.
  intros Hi Hc Hnt He. unfold enabled in He.
  rewrite (render_coding test (st w) Hi Hc) in He.
  destruct e; cbn in He, Hnt; try discriminate; try contradiction; cbn [handle];
    unfold handleVisibilityChange, handleBeforeUnload, settle, withState;
    repeat case_match; simplify_eq; reflexivity.
Qed.

Lemma step_coding_view test startTime w i :
  showInstructions (st w) = false ->
  showCodingSection (st w) = true ->
  mcqCompleted (st w) = true ->
  notTick i ->
  submissions (step test startTime w i).2 = [].
Proof.
  intros Hi Hc Hm Hnt. destruct i as [now e]. unfold step.
  destruct (enabled test w e) eqn:He.
  - pose proof (handle_coding_view test startTime now e w Hi Hc Hnt He) as Hh.
    destruct (handle_advances test startTime now e w) as (_ & _ & A3 & _).
    destruct (handle test startTime now e w) as [w1 eff1]. cbn in *.
    rewrite violationEffect_idle
      by (apply violationCondition_mcqCompleted; auto).
    rewrite app_nil_r. exact Hh.
  - rewrite violationEffect_idle
      by (apply violationCondition_mcqCompleted; auto).
    reflexivity.
Qed.

(** X9. Once the coding section is shown, no user action and no tab
    switch reaches [onSubmit]: the submit dialog is not part of the
    coding view, so its "Submit Test" button only sets a flag, and the
    violation effect is off once the MCQ part is completed. In every
    session reached from mounting, any further events other than clock
    ticks make no submission call. *)
Theorem coding_view_never_submits test startTime saved inputs rest :
  let w := (run test startTime (mount test saved) inputs).1 in
  showCodingSection (st w) = true ->
  Forall notTick rest ->
  submissions (run test startTime w rest).2 = [].
Proof.
  intros w Hc Hrest.
  pose proof (run_codingInv test startTime (mount test saved) inputs
                (mount_codingInv test saved)) as Hinv.
  fold w in Hinv. clearbody w.
  destruct (Hinv Hc) as [Hi Hm]. clear Hinv.
  revert w Hc Hi Hm. induction Hrest as [|i rest Hnt Hrest IH]; intros w Hc Hi Hm.
  - reflexivity.
  - cbn [run].
    pose proof (step_coding_view test startTime w i Hi Hc Hm Hnt) as Hs.
    destruct (step_advances test startTime w i) as (_ & _ & A3 & A4 & A5 & _).
    destruct (step test startTime w i) as [w1 eff1]. cbn [fst snd] in *.
    specialize (IH w1 (A4 Hc) (A5 Hi) (A3 Hm)).
    destruct (run test startTime w1 rest) as [w2 eff2]. cbn [fst snd] in *.
    rewrite submissions_app, Hs, IH. reflexivity.
Qed.

Lemma coding_view_never_submits_witness :
  let w := (run codingTest 0 (mount codingTest None)
              (startInputs ++ [(1000%Z, ClickHeaderButton)])).1 in
  let rest := [(2000%Z, ClickCodingSubmit); (3000%Z, ClickSubmitFinal);
               (4000%Z, VisibilityHidden); (5000%Z, VisibilityHidden);
               (6000%Z, VisibilityHidden); (7000%Z, CodingSubmitted "sub1" 100);
               (8000%Z, ClickCodingSubmit)] in
  showCodingSection (st w) = true
  /\ Forall notTick rest
  /\ showSubmitConfirm (st (run codingTest 0 w rest).1) = true
  /\ submissions (run codingTest 0 w rest).2 = [].
Proof.
  split; [vm_compute; reflexivity|].
  assert (Hrest : Forall notTick
            [(2000%Z, ClickCodingSubmit); (3000%Z, ClickSubmitFinal);
             (4000%Z, VisibilityHidden); (5000%Z, VisibilityHidden);
             (6000%Z, VisibilityHidden); (7000%Z, CodingSubmitted "sub1" 100);
             (8000%Z, ClickCodingSubmit)]).
  { repeat constructor. }
  split; [exact Hrest|]. split; [vm_compute; reflexivity|].
  apply (coding_view_never_submits codingTest 0 None
           (startInputs ++ [(1000%Z, ClickHeaderButton)])); [vm_compute; reflexivity|exact Hrest].
Defined.

(** ** Position inside the section *)

Lemma positionInv_same test s s' :
  currentSectionIndex s' = currentSectionIndex s ->
  currentQuestionIndex s' = currentQuestionIndex s ->
  positionInv test s -> positionInv test s'.
Proof.
  intros E1 E2. unfold positionInv.
  rewrite (getCurrentSectionQuestions_pos test s s' E1), E2. tauto.
Qed.

Lemma positionInv_ledger test s s' :
  ledger s' = ledger s -> positionInv test s -> positionInv test s'.
Proof.
  unfold ledger. intros [= _ E1 E2 _ _]. apply positionInv_same; assumption.
Qed.

Lemma handleNavigateToQuestion_positionInv test index s :
  index < length (getCurrentSectionQuestions test s) ->
  positionInv test (handleNavigateToQuestion test index s).
Proof.
  intros Hlt. left. unfold handleNavigateToQuestion.
  destruct (getCurrentSectionQuestions test s !! index);
    (rewrite (getCurrentSectionQuestions_pos test s) by (destruct s; reflexivity));
    destruct s; cbn in *; exact Hlt.
Qed.

Lemma handleSaveAndNext_positionInv test s :
  positionInv test s -> positionInv test (handleSaveAndNext test s).
Proof.
  intros Hinv. unfold handleSaveAndNext.
  destruct (Nat.ltb_spec (currentQuestionIndex s + 1)
              (length (getCurrentSectionQuestions test s))) as [Hlt|Hge].
  - exact (handleNavigateToQuestion_positionInv test _ s Hlt).
  - eapply positionInv_same; [| |exact Hinv]; destruct s; reflexivity.
Qed.

Lemma handleNextSection_positionInv test s :
  positionInv test s -> positionInv test (handleNextSection test s).1.
Proof.
  intros Hinv. unfold handleNextSection, selectFirstCoding.
  repeat case_match; cbn [fst];
    try (right; destruct s; reflexivity);
    (eapply positionInv_same; [| |exact Hinv]; destruct s; reflexivity).
Qed.

Lemma handle_positionInv test startTime now e w :
  enabled test w e = true ->
  positionInv test (st w) ->
  positionInv test (st (handle test startTime now e w).1).
Proof.
  intros He Hinv.
  destruct e; cbn [handle].
  - eapply positionInv_ledger; [|exact Hinv]. ledger_by_cases.
  - unfold handleStartTest, selectFirstCoding.
    repeat case_match; simplify_eq; cbn [st fst]; try exact Hinv;
      (eapply positionInv_same; [| |exact Hinv]; destruct w as [[] ? ? ?]; reflexivity).
  - exact Hinv.
  - eapply positionInv_ledger; [|exact Hinv]. apply onInterval_ledger.
  - eapply positionInv_ledger; [|exact Hinv]. ledger_by_cases.
  - eapply positionInv_ledger; [|exact Hinv]. ledger_by_cases.
  - destruct (getCurrentQuestion test (st w)); [|exact Hinv].
    eapply positionInv_same; [| |exact Hinv]; destruct w as [[] ? ? ?]; reflexivity.
  - destruct (Nat.ltb_spec 0 (currentQuestionIndex (st w))) as [Hpos|]; [|exact Hinv].
    apply handleNavigateToQuestion_positionInv.
    destruct Hinv as [Hlt|Hz]; lia.
  - unfold handleMarkForReviewAndNext. apply handleSaveAndNext_positionInv.
    eapply positionInv_ledger; [|exact Hinv]. apply handleMarkForReview_ledger.
  - destruct w as [s tc sto pend]; cbn [withState st fst] in *.
    eapply positionInv_same; [| |exact Hinv];
      unfold handleClearResponse; case_match; destruct s; reflexivity.
  - apply handleSaveAndNext_positionInv, Hinv.
  - unfold enabled in He.
    apply handleNavigateToQuestion_positionInv.
    destruct (render test (st w)); try discriminate.
    apply bool_decide_eq_true in He. exact He.
  - eapply positionInv_ledger; [|exact Hinv]. ledger_by_cases.
  - eapply positionInv_ledger; [|exact Hinv]. ledger_by_cases.
  - destruct (handleNextSection test (st w)) as [s' eff] eqn:Hh.
    change s' with (s', eff).1. rewrite <- Hh.
    apply handleNextSection_positionInv, Hinv.
  - eapply positionInv_ledger; [|exact Hinv]. ledger_by_cases.
  - eapply positionInv_ledger; [|exact Hinv]. ledger_by_cases.
  - eapply positionInv_ledger; [|exact Hinv]. ledger_by_cases.
  - eapply positionInv_ledger; [|exact Hinv]. ledger_by_cases.
  - eapply positionInv_ledger; [|exact Hinv]. ledger_by_cases.
  - eapply positionInv_ledger; [|exact Hinv]. rewrite settle_ledger. reflexivity.
Qed.

Lemma run_positionInv test startTime w inputs :
  positionInv test (st w) -> positionInv test (st (run test startTime w inputs).1).
Proof.
  revert w. induction inputs as [|[now e] rest IH]; intros w Hinv; [exact Hinv|].
  cbn [run]. unfold step.
  assert (Hstep : positionInv test
            (st (let '(w1, eff1) :=
                   if enabled test w e then handle test startTime now e w else (w, [])
                 in let '(w2, eff2) := violationEffect test startTime now w1
                    in (w2, eff1 ++ eff2)).1)).
  { destruct (enabled test w e) eqn:He.
    - pose proof (handle_positionInv test startTime now e w He Hinv) as Hh.
      destruct (handle test startTime now e w) as [w1 eff1].
      pose proof (violationEffect_ledger test startTime now w1) as Hv.
      destruct (violationEffect test startTime now w1) as [w2 eff2].
      eapply positionInv_ledger; [exact Hv|exact Hh].
    - pose proof (violationEffect_ledger test startTime now w) as Hv.
      destruct (violationEffect test startTime now w) as [w2 eff2].
      eapply positionInv_ledger; [exact Hv|exact Hinv]. }
  destruct (let '(w1, eff1) :=
              if enabled test w e then handle test startTime now e w else (w, [])
            in let '(w2, eff2) := violationEffect test startTime now w1
               in (w2, eff1 ++ eff2)) as [w1 eff1].
  specialize (IH w1 Hstep).
  destruct (run test startTime w1 rest) as [w2 eff2]. exact IH.
Qed.

(** X10. In a session mounted without a checkpoint the question index
    never leaves the current section: whenever the section has
    questions there is a question on screen, at every point of every
    run. *)
Theorem fresh_session_has_current_question test startTime inputs :
  let s := st (run test startTime (mount test None) inputs).1 in
  getCurrentSectionQuestions test s <> [] ->
  is_Some (getCurrentQuestion test s).
Proof.
  intros s Hne.
  assert (Hinv : positionInv test s).
  { apply run_positionInv. right. reflexivity. }
  unfold getCurrentQuestion. destruct Hinv as [Hlt|Hz].
  - apply lookup_lt_is_Some_2, Hlt.
  - rewrite Hz. destruct (getCurrentSectionQuestions test s); [congruence|]. eauto.
Qed.

Lemma fresh_session_has_current_question_witness :
  let s := st (run sectionedTest 0 (mount sectionedTest None)
                 (sectionOneInputs ++ [(5000%Z, ClickNextSection)])).1 in
  getCurrentSectionQuestions sectionedTest s <> []
  /\ is_Some (getCurrentQuestion sectionedTest s).
Proof.
  assert (Hne : getCurrentSectionQuestions sectionedTest
            (st (run sectionedTest 0 (mount sectionedTest None)
                   (sectionOneInputs ++ [(5000%Z, ClickNextSection)])).1) <> [])
    by (vm_compute; discriminate).
  split; [exact Hne|].
  exact (fresh_session_has_current_question sectionedTest 0
           (sectionOneInputs ++ [(5000%Z, ClickNextSection)]) Hne).
Defined.

(** ** What the clock submits *)

Lemma mount_startRenderInv test : startRenderInv (mount test None).
Proof. unfold startRenderInv, mount. cbn. split; [auto|]. intros r [=]. Qed.

Lemma violationEffect_startRenderInv test startTime now w :
  startRenderInv w -> startRenderInv (violationEffect test startTime now w).1.
Proof.
  unfold startRenderInv, violationEffect, violationCondition, autoSubmitTest,
    selectFirstCoding, withState.
  destruct w as [[si ? ? ? ? ? ? ? sub ? ? scs mcq ? ? v] tc sto pend]; cbn -[Nat.leb].
  intros [H1 H2]. destruct si; cbn -[Nat.leb];
    rewrite ?andb_false_r; cbn -[Nat.leb];
    repeat case_match; cbn; (split; [intros; first [discriminate | auto] | exact H2]).
Qed.

Lemma handle_startRenderInv test startTime now e w :
  enabled test w e = true ->
  startRenderInv w -> startRenderInv (handle test startTime now e w).1.
Proof.
  intros He [H1 H2]. apply enabled_view in He.
  destruct (handle_advances test startTime now e w) as (_ & _ & _ & _ & A5 & _).
  unfold startRenderInv.
  destruct (showInstructions (st w)) eqn:Hi.
  - destruct (H1 eq_refl) as [Ha Hc]. clear H1 A5.
    destruct e; cbn [handle] in *;
      try (destruct He as (? & _); discriminate); try discriminate;
      unfold handleStartTest, handleBeforeUnload, settle, selectFirstCoding, withState;
      destruct w as [[si ? ? ? an ? ? ? sub ? ? scs mcq ? cs v] tc sto pend];
      cbn in *; subst;
      repeat (case_match; simplify_eq; cbn in * );
      (split; [intros; first [discriminate | auto] | ]);
      try exact H2; intros r' [= <-]; cbn; auto.
  - specialize (A5 eq_refl). split; [rewrite A5; discriminate|].
    clear H1 A5.
    destruct e; cbn [handle] in *;
      try (destruct He as (? & _); congruence); try (destruct He; congruence);
      unfold onInterval, timerUpdater, handleAutoSubmit, handleSubmit,
        handleVisibilityChange, handleBeforeUnload, settle, handleNextSection,
        selectFirstCoding, withState;
      destruct w as [s tc sto pend]; cbn -[Nat.leb Nat.ltb] in *;
      repeat (case_match; simplify_eq; cbn -[Nat.leb Nat.ltb] in * );
      try exact H2; try discriminate.
Qed.

Lemma run_startRenderInv test startTime w inputs :
  startRenderInv w -> startRenderInv (run test startTime w inputs).1.
Proof.
  revert w. induction inputs as [|[now e] rest IH]; intros w Hinv; [exact Hinv|].
  cbn [run]. unfold step.
  assert (Hstep : startRenderInv
            (let '(w1, eff1) :=
               if enabled test w e then handle test startTime now e w else (w, [])
             in let '(w2, eff2) := violationEffect test startTime now w1
                in (w2, eff1 ++ eff2)).1).
  { destruct (enabled test w e) eqn:He.
    - pose proof (handle_startRenderInv test startTime now e w He Hinv) as Hh.
      destruct (handle test startTime now e w) as [w1 eff1].
      pose proof (violationEffect_startRenderInv test startTime now w1 Hh) as Hv.
      destruct (violationEffect test startTime now w1) as [w2 eff2]. exact Hv.
    - pose proof (violationEffect_startRenderInv test startTime now w Hinv) as Hv.
      destruct (violationEffect test startTime now w) as [w2 eff2]. exact Hv. }
  destruct (let '(w1, eff1) :=
              if enabled test w e then handle test startTime now e w else (w, [])
            in let '(w2, eff2) := violationEffect test startTime now w1
               in (w2, eff1 ++ eff2)) as [w1 eff1].
  specialize (IH w1 Hstep).
  destruct (run test startTime w1 rest) as [w2 eff2]. exact IH.
Qed.

Lemma submissionAnswers_empty test :
  submissionAnswers test ∅ =
  map (fun q => {| questionId := q_id q; selectedAnswer := EmptyString;
                   sa_timeSpent := Some 0 |}) (allQuestions test).
Proof.
  unfold submissionAnswers. apply map_ext. intros q.
  unfold answerOrEmpty. rewrite lookup_empty. reflexivity.
Qed.

(** X11. On a test without coding section whose question ids do not
    name members of [Object.prototype], in a session mounted without a
    checkpoint, the submission made when the clock expires hands over
    the empty string for every question of the test and no coding
    submissions, whatever was answered in the meantime: the interval
    callback reads the answers of the render in which the test was
    started. It is the only submission call of that tick. *)
Theorem clock_submission_hands_no_answers test startTime inputs now :
  codingAvailable test = false ->
  plainQuestionIds test = true ->
  let w := (run test startTime (mount test None) inputs).1 in
  showInstructions (st w) = false ->
  timeLeft (st w) <= 1 ->
  submissions (step test startTime w (now, Tick)).2 =
  [OnSubmit
     (map (fun q => {| questionId := q_id q; selectedAnswer := EmptyString;
                       sa_timeSpent := Some 0 |}) (allQuestions test))
     (minutesSince startTime now) []].
Proof.
  intros Hca _ w Hi Hexp.
  pose proof (run_sessionInv test startTime (mount test None) inputs
                (mount_sessionInv test None)) as Hinv.
  pose proof (run_startRenderInv test startTime (mount test None) inputs
                (mount_startRenderInv test)) as Hsr.
  fold w in Hinv, Hsr. clearbody w.
  destruct Hinv as (_ & H2 & _). destruct (H2 Hi) as (r & Htc & Hr1 & _).
  destruct Hsr as [_ Hsr]. destruct (Hsr r Htc) as [Ha Hc].
  unfold step. rewrite enabled_Tick, Hi. cbn [negb handle].
  unfold onInterval. rewrite Htc, timerUpdater_expired by exact Hexp.
  unfold handleAutoSubmit, handleSubmit. rewrite Hr1, Hca, andb_false_r, Ha, Hc.
  rewrite submissionAnswers_empty.
  rewrite violationEffect_idle.
  - reflexivity.
  - unfold violationCondition, withState. destruct w as [[] ? ? ?]; cbn -[Nat.leb].
    rewrite andb_false_r. reflexivity.
Qed.

Lemma clock_submission_hands_no_answers_witness :
  let w := (run flatTest 0 (mount flatTest None)
              (startInputs ++ [(500%Z, ChangeOption OptA)]
               ++ map (fun k => ((Z.of_nat k * 1000)%Z, Tick)) (seq 1 59))).1 in
  codingAvailable flatTest = false
  /\ plainQuestionIds flatTest = true
  /\ showInstructions (st w) = false
  /\ timeLeft (st w) <= 1
  /\ answers (st w) !! "q1" = Some "A"
  /\ submissions (step flatTest 0 w (60000%Z, Tick)).2 =
     [OnSubmit
        (map (fun q => {| questionId := q_id q; selectedAnswer := EmptyString;
                          sa_timeSpent := Some 0 |}) (allQuestions flatTest))
        (minutesSince 0 60000%Z) []].
Proof.
  split; [reflexivity|]. split; [reflexivity|].
  assert (Hi : showInstructions (st (run flatTest 0 (mount flatTest None)
              (startInputs ++ [(500%Z, ChangeOption OptA)]
               ++ map (fun k => ((Z.of_nat k * 1000)%Z, Tick)) (seq 1 59))).1) = false)
    by (vm_compute; reflexivity).
  assert (Ht : timeLeft (st (run flatTest 0 (mount flatTest None)
              (startInputs ++ [(500%Z, ChangeOption OptA)]
               ++ map (fun k => ((Z.of_nat k * 1000)%Z, Tick)) (seq 1 59))).1) <= 1)
    by (vm_compute; lia).
  split; [exact Hi|]. split; [exact Ht|]. split; [vm_compute; reflexivity|].
  exact (clock_submission_hands_no_answers flatTest 0 _ 60000%Z eq_refl eq_refl Hi Ht).
Defined.

(** ** What leaves the component *)

(** X12. The saved checkpoint is removed, and the component exits after
    a test, only when a submission has succeeded: an event that is not
    the success of a pending [onSubmit] call removes nothing from
    [localStorage], changes the stored checkpoint only if it is the page
    unload, and calls [onExit] only if it is the Cancel button of the
    instructions. *)
Theorem checkpoint_kept_until_success test startTime w now e :
  (forall c, e <> SubmitSettled c true) ->
  let r := step test startTime w (now, e) in
  ~ In LocalStorageRemoveItem r.2
  /\ (e <> BeforeUnload -> storage r.1 = storage w)
  /\ (e <> ClickCancel -> ~ In OnExit r.2).
Proof.
  intros Hne. cbn zeta. unfold step.
  assert (Hv : forall w', storage (violationEffect test startTime now w').1 = storage w'
                          /\ ~ In LocalStorageRemoveItem (violationEffect test startTime now w').2
                          /\ ~ In OnExit (violationEffect test startTime now w').2).
  { intros w'. unfold violationEffect, autoSubmitTest, withState.
    repeat case_match; cbn; repeat split; try reflexivity; intuition discriminate. }
  assert (Hh : ~ In LocalStorageRemoveItem (handle test startTime now e w).2
               /\ (e <> BeforeUnload -> storage (handle test startTime now e w).1 = storage w)
               /\ (e <> ClickCancel -> ~ In OnExit (handle test startTime now e w).2)).
  { destruct e; cbn [handle];
      unfold handleStartTest, onInterval, timerUpdater, handleAutoSubmit, handleSubmit,
        handleVisibilityChange, handleBeforeUnload, settle, handleNextSection, withState;
      repeat (case_match; simplify_eq; cbn [fst snd storage] in * );
      try (exfalso; eapply Hne; reflexivity);
      repeat split; intros; try congruence; cbn; intuition discriminate. }
  destruct (enabled test w e).
  - destruct Hh as (Hh1 & Hh2 & Hh3).
    destruct (handle test startTime now e w) as [w1 eff1].
    destruct (Hv w1) as (Hv1 & Hv2 & Hv3).
    destruct (violationEffect test startTime now w1) as [w2 eff2]. cbn [fst snd] in *.
    repeat split.
    + rewrite in_app_iff. tauto.
    + intros Hb. rewrite Hv1. auto.
    + intros Hc. rewrite in_app_iff. specialize (Hh3 Hc). tauto.
  - destruct (Hv w) as (Hv1 & Hv2 & Hv3).
    destruct (violationEffect test startTime now w) as [w2 eff2]. cbn [fst snd app] in *.
    repeat split; auto.
Qed.

Lemma checkpoint_kept_until_success_witness :
  let w := (run flatTest 0 (mount flatTest None)
              (answerSecondAndUnloadInputs
               ++ [(4000%Z, ClickHeaderButton); (5000%Z, ClickSubmitFinal)])).1 in
  let r := step flatTest 0 w (6000%Z, SubmitSettled ByHandleSubmit false) in
  (forall c, SubmitSettled ByHandleSubmit false <> SubmitSettled c true)
  /\ is_Some (storage w)
  /\ ~ In LocalStorageRemoveItem r.2
  /\ (SubmitSettled ByHandleSubmit false <> BeforeUnload -> storage r.1 = storage w)
  /\ (SubmitSettled ByHandleSubmit false <> ClickCancel -> ~ In OnExit r.2).
Proof.
  assert (Hne : forall c, SubmitSettled ByHandleSubmit false <> SubmitSettled c true)
    by (intros c; discriminate).
  split; [exact Hne|]. split; [vm_compute; eexists; reflexivity|].
  exact (checkpoint_kept_until_success flatTest 0 _ 6000%Z _ Hne).
Defined.

(** ** Clock display *)

Lemma pad2_twoDigits n : n < 100 -> pad2 n = twoDigits n.
Proof.
  intros Hn.
  do 100 (destruct n as [|n]; [reflexivity|]).
  lia.
Qed.

Lemma digitChar_inj a b : a < 10 -> b < 10 -> digitChar a = digitChar b -> a = b.
Proof.
  unfold digitChar. intros Ha Hb E.
  apply (f_equal nat_of_ascii) in E.
  rewrite !nat_ascii_embedding in E by lia. lia.
Qed.

Lemma twoDigits_inj n m : n < 100 -> m < 100 -> twoDigits n = twoDigits m -> n = m.
Proof.
  unfold twoDigits. intros Hn Hm.
  pose proof (Nat.div_mod_eq n 10). pose proof (Nat.div_mod_eq m 10).
  pose proof (Nat.mod_upper_bound n 10 ltac:(lia)).
  pose proof (Nat.mod_upper_bound m 10 ltac:(lia)).
  assert (n / 10 < 10) by (apply Nat.Div0.div_lt_upper_bound; lia).
  assert (m / 10 < 10) by (apply Nat.Div0.div_lt_upper_bound; lia).
  generalize dependent (n / 10). generalize dependent (n mod 10).
  generalize dependent (m / 10). generalize dependent (m mod 10).
  intros b' ? a' ? ? b ? a ? ? [= E1 E2].
  apply digitChar_inj in E1; [|assumption..].
  apply digitChar_inj in E2; [|assumption..].
  lia.
Qed.

Lemma clock_parts seconds :
  seconds < 100 * 3600 ->
  seconds / 3600 < 100
  /\ (seconds mod 3600) / 60 < 60
  /\ seconds mod 60 < 60
  /\ seconds = 3600 * (seconds / 3600) + 60 * ((seconds mod 3600) / 60) + seconds mod 60.
Proof.
  intros Hs.
  pose proof (Nat.div_mod_eq seconds 3600).
  pose proof (Nat.mod_upper_bound seconds 3600 ltac:(lia)).
  pose proof (Nat.div_mod_eq (seconds mod 3600) 60).
  pose proof (Nat.mod_upper_bound (seconds mod 3600) 60 ltac:(lia)).
  assert (E : (seconds mod 3600) mod 60 = seconds mod 60).
  { change 3600 with (60 * 60). rewrite Nat.Div0.mod_mul_r.
    rewrite (Nat.mul_comm 60 (_ mod 60)), Nat.Div0.mod_add, Nat.Div0.mod_mod. reflexivity. }
  rewrite E in *.
  repeat split.
  - apply Nat.Div0.div_lt_upper_bound. lia.
  - apply Nat.Div0.div_lt_upper_bound. lia.
  - lia.
  - lia.
Qed.

Lemma formatTime_shape seconds :
  seconds < 100 * 3600 ->
  formatTime seconds =
  (if seconds <? 3600
   then String.append (twoDigits (seconds / 60))
          (String.append ":" (twoDigits (seconds mod 60)))
   else String.append (twoDigits (seconds / 3600))
          (String.append ":"
             (String.append (twoDigits ((seconds mod 3600) / 60))
                (String.append ":" (twoDigits (seconds mod 60))))))
  /\ String.length (formatTime seconds) = (if seconds <? 3600 then 5 else 8)
  /\ (seconds mod 3600) / 60 < 60
  /\ seconds mod 60 < 60.
Proof.
  intros Hs. destruct (clock_parts seconds Hs) as (Hh & Hm & Hsec & _).
  unfold formatTime.
  rewrite !pad2_twoDigits by lia.
  destruct (Nat.ltb_spec seconds 3600) as [Hlt|Hge].
  - rewrite (Nat.div_small seconds 3600), (Nat.mod_small seconds 3600) by lia.
    cbn [Nat.ltb Nat.leb]. repeat split; try reflexivity; try assumption.
    apply Nat.Div0.div_lt_upper_bound; lia.
  - assert (0 < seconds / 3600).
    { apply Nat.div_str_pos. lia. }
    destruct (Nat.ltb_spec 0 (seconds / 3600)); [|lia].
    repeat split; try reflexivity; assumption.
Qed.

(** X13. Below 100 hours the clock shows two digits per field: "MM:SS"
    (five characters) below one hour, "HH:MM:SS" (eight characters) from
    one hour on, with minutes and seconds below 60. *)
Theorem formatTime_fields seconds :
  seconds < 100 * 3600 ->
  formatTime seconds =
  (if seconds <? 3600
   then String.append (twoDigits (seconds / 60))
          (String.append ":" (twoDigits (seconds mod 60)))
   else String.append (twoDigits (seconds / 3600))
          (String.append ":"
             (String.append (twoDigits ((seconds mod 3600) / 60))
                (String.append ":" (twoDigits (seconds mod 60))))))
  /\ String.length (formatTime seconds) = (if seconds <? 3600 then 5 else 8)
  /\ (seconds mod 3600) / 60 < 60
  /\ seconds mod 60 < 60.
Proof.
  intros Hs.
  destruct (formatTime_shape seconds Hs) as (Hshape & Hlen & _).
  destruct (clock_parts seconds Hs) as (_ & Hmin & Hsec & _).
  repeat split; assumption.
Qed.

Lemma formatTime_fields_witness :
  3725 < 100 * 3600
  /\ formatTime 3725 = "01:02:05"
  /\ formatTime 299 = "04:59"
  /\ String.length (formatTime 3725) = 8.
Proof.
  destruct (formatTime_fields 3725 ltac:(lia)) as (E & L & _).
  split; [lia|]. split; [exact E|]. split; [reflexivity|exact L].
Defined.

Lemma twoDigits_append_inj n m r1 r2 :
  n < 100 -> m < 100 ->
  String.append (twoDigits n) r1 = String.append (twoDigits m) r2 ->
  n = m /\ r1 = r2.
Proof.
  unfold twoDigits. intros Hn Hm.
  pose proof (Nat.div_mod_eq n 10). pose proof (Nat.div_mod_eq m 10).
  pose proof (Nat.mod_upper_bound n 10 ltac:(lia)).
  pose proof (Nat.mod_upper_bound m 10 ltac:(lia)).
  assert (n / 10 < 10) by (apply Nat.Div0.div_lt_upper_bound; lia).
  assert (m / 10 < 10) by (apply Nat.Div0.div_lt_upper_bound; lia).
  generalize dependent (n / 10). generalize dependent (n mod 10).
  generalize dependent (m / 10). generalize dependent (m mod 10).
  intros b' ? a' ? ? b ? a ? ?. cbn [String.append]. intros [= E1 E2 E3].
  apply digitChar_inj in E1; [|assumption..].
  apply digitChar_inj in E2; [|assumption..].
  split; [lia|exact E3].
Qed.

Lemma colon_append_inj r1 r2 :
  String.append ":" r1 = String.append ":" r2 -> r1 = r2.
Proof. cbn [String.append]. intros [= E]. exact E. Qed.

(** X14. Below 100 hours two different remaining times are never shown
    as the same text. *)
Theorem formatTime_injective s1 s2 :
  s1 < 100 * 3600 -> s2 < 100 * 3600 ->
  formatTime s1 = formatTime s2 -> s1 = s2.
Proof.
  intros H1 H2 E.
  destruct (formatTime_shape s1 H1) as (E1 & L1 & _ & _).
  destruct (formatTime_shape s2 H2) as (E2 & L2 & _ & _).
  destruct (clock_parts s1 H1) as (Hh1 & Hm1 & Hc1 & D1).
  destruct (clock_parts s2 H2) as (Hh2 & Hm2 & Hc2 & D2).
  rewrite E in L1. rewrite L2 in L1.
  rewrite E1, E2 in E. clear E1 E2 L2.
  destruct (Nat.ltb_spec s1 3600) as [G1|G1], (Nat.ltb_spec s2 3600) as [G2|G2];
    try discriminate L1.
  - rewrite (Nat.div_small s1 3600), (Nat.mod_small s1 3600) in * by lia.
    rewrite (Nat.div_small s2 3600), (Nat.mod_small s2 3600) in * by lia.
    apply twoDigits_append_inj in E as [A1 E]; [|lia..].
    apply colon_append_inj in E.
    apply twoDigits_inj in E; [|lia..].
    lia.
  - apply twoDigits_append_inj in E as [A1 E]; [|lia..].
    apply colon_append_inj in E.
    apply twoDigits_append_inj in E as [A2 E]; [|lia..].
    apply colon_append_inj in E.
    apply twoDigits_inj in E; [|lia..].
    lia.
Qed.

Lemma formatTime_injective_witness :
  59 < 100 * 3600 /\ 59 < 100 * 3600 /\ formatTime 59 = formatTime 59 /\ 59 = 59.
Proof.
  split; [lia|]. split; [lia|]. split; [reflexivity|].
  exact (formatTime_injective 59 59 ltac:(lia) ltac:(lia) eq_refl).
Defined.

(** ** The persistence hook *)

Lemma append_inj_r (p a b : string) : String.append p a = String.append p b -> a = b.
Proof. induction p as [|c p IH]; cbn; [auto|]. intros [= E]. auto. Qed.

Lemma progressKey_inj a b :
  UseTestPersistence.progressKey a = UseTestPersistence.progressKey b -> a = b.
Proof. apply append_inj_r. Qed.

(** X15. The hook keeps tests apart: saving (from the unload listener
    or directly) or clearing the progress of one test never changes what
    is stored for a test with another identifier. *)
Theorem hook_tests_are_isolated (Data : Type) (stringify : Data -> string)
    testId testId' testData isActive isSubmitting (localStorage : gmap string string) :
  testId <> testId' ->
  UseTestPersistence.saveProgressDirectly Data stringify testId testData
      isActive isSubmitting localStorage
    !! UseTestPersistence.progressKey testId'
  = localStorage !! UseTestPersistence.progressKey testId'
  /\ UseTestPersistence.handleBeforeUnload Data stringify testId testData
       isActive isSubmitting localStorage
     !! UseTestPersistence.progressKey testId'
     = localStorage !! UseTestPersistence.progressKey testId'
  /\ UseTestPersistence.clearProgress testId localStorage
     !! UseTestPersistence.progressKey testId'
     = localStorage !! UseTestPersistence.progressKey testId'.
Proof.
  intros Hne.
  assert (Hk : UseTestPersistence.progressKey testId
               <> UseTestPersistence.progressKey testId').
  { intros E. apply Hne, progressKey_inj, E. }
  unfold UseTestPersistence.saveProgressDirectly, UseTestPersistence.handleBeforeUnload,
    UseTestPersistence.clearProgress.
  destruct (isActive && negb isSubmitting);
    rewrite ?lookup_insert_ne, ?lookup_delete_ne by exact Hk; auto.
Qed.

Lemma hook_tests_are_isolated_witness :
  let ls : gmap string string := {[ "test_progress_t2" := "saved" ]} in
  "t1" <> "t2"
  /\ UseTestPersistence.saveProgressDirectly nat toString "t1" 7 true false ls
     !! UseTestPersistence.progressKey "t2" = Some "saved"
  /\ UseTestPersistence.clearProgress "t1" ls
     !! UseTestPersistence.progressKey "t2" = Some "saved".
Proof.
  assert (Hne : "t1" <> "t2") by discriminate.
  destruct (hook_tests_are_isolated nat toString "t1" "t2" 7 true false
              {[ "test_progress_t2" := "saved" ]} Hne) as (H1 & _ & H3).
  split; [exact Hne|]. split.
  - rewrite H1. reflexivity.
  - rewrite H3. reflexivity.
Defined.

(** X16. The hook writes only while the test is active and not being
    submitted, then stores the serialised progress under the test's key;
    the unload listener and the direct save write the same; clearing
    removes the entry, whether or not a save came before. *)
Theorem hook_save_and_clear (Data : Type) (stringify : Data -> string)
    testId testData isActive isSubmitting (localStorage : gmap string string) :
  let saved := UseTestPersistence.saveProgressDirectly Data stringify testId testData
                 isActive isSubmitting localStorage in
  saved = (if isActive && negb isSubmitting
           then <[UseTestPersistence.progressKey testId := stringify testData]> localStorage
           else localStorage)
  /\ saved !! UseTestPersistence.progressKey testId
     = (if isActive && negb isSubmitting then Some (stringify testData)
        else localStorage !! UseTestPersistence.progressKey testId)
  /\ UseTestPersistence.handleBeforeUnload Data stringify testId testData
       isActive isSubmitting localStorage = saved
  /\ UseTestPersistence.clearProgress testId saved
     = UseTestPersistence.clearProgress testId localStorage
  /\ UseTestPersistence.clearProgress testId saved
     !! UseTestPersistence.progressKey testId = None.
Proof.
  cbn zeta.
  unfold UseTestPersistence.saveProgressDirectly, UseTestPersistence.handleBeforeUnload,
    UseTestPersistence.clearProgress.
  destruct (isActive && negb isSubmitting);
    rewrite ?delete_insert_eq, ?lookup_insert_eq, ?lookup_delete_eq; auto.
Qed.

(** ** The resume context *)

(** X17. What a consumer reads back from the context: after saving a
    test's progress, a later render gets it from [getTestProgress] and
    [hasUnsavedProgress] holds for it. After clearing it, the test id is
    no longer an own key of [savedTests]: both say there is none, unless
    the id names a member of [Object.prototype], in which case
    [getTestProgress] returns that member and [hasUnsavedProgress] still
    holds. Neither call changes what is read for another test. *)
Theorem resume_save_then_get (Progress : Type) r testId progress ok
    (w : TestResume.Provider Progress) :
  let saved := TestResume.saveTestProgress Progress r testId progress ok w in
  let cleared := TestResume.clearTestProgress Progress testId ok saved in
  TestResume.getTestProgress Progress (TestResume.savedTests Progress saved) testId
    = TestResume.ReadProgress Progress progress
  /\ TestResume.hasUnsavedProgress Progress (TestResume.savedTests Progress saved) testId
     = true
  /\ TestResume.savedTests Progress cleared !! testId = None
  /\ TestResume.getTestProgress Progress (TestResume.savedTests Progress cleared) testId
     = (if inheritedKey testId then TestResume.ReadInherited Progress testId
        else TestResume.ReadNull Progress)
  /\ TestResume.hasUnsavedProgress Progress (TestResume.savedTests Progress cleared) testId
     = inheritedKey testId
  /\ (forall other, other <> testId ->
        TestResume.getTestProgress Progress (TestResume.savedTests Progress cleared) other
        = TestResume.getTestProgress Progress (TestResume.savedTests Progress w) other).
Proof.
  cbn zeta. unfold TestResume.getTestProgress, TestResume.hasUnsavedProgress. cbn.
  rewrite lookup_insert_eq, lookup_delete_eq.
  repeat split.
  intros other Hne. rewrite lookup_delete_ne, lookup_insert_ne by congruence. reflexivity.
Qed.

(** The two readings of a cleared test id, on concrete providers. *)
Lemma resume_cleared_reads :
  let start := TestResume.mountProvider nat None in
  let after testId :=
    TestResume.savedTests nat
      (TestResume.clearTestProgress nat testId true
         (TestResume.saveTestProgress nat (TestResume.savedTests nat start) testId 7 true
            start)) in
  TestResume.getTestProgress nat (after "t1") "t1" = TestResume.ReadNull nat
  /\ TestResume.hasUnsavedProgress nat (after "t1") "t1" = false
  /\ TestResume.getTestProgress nat (after "constructor") "constructor"
     = TestResume.ReadInherited nat "constructor"
  /\ TestResume.hasUnsavedProgress nat (after "constructor") "constructor" = true.
Proof. vm_compute. auto. Qed.

Lemma call_mirror (Progress : Type) (w : TestResume.Provider Progress) c :
  let w' := TestResume.call Progress w c in
  TestResume.stored Progress w' = Some (TestResume.savedTests Progress w')
  \/ (TestResume.stored Progress w' = None /\ TestResume.savedTests Progress w' = ∅).
Proof. destruct c; cbn; auto. Qed.

(** X18. As long as every call is made from an up-to-date render and
    [localStorage] accepts the writes, the copy under ['testProgress']
    follows the state: after any non-empty sequence of save, clear and
    clear-all calls the stored object is the current [savedTests], or
    the key is absent and [savedTests] is empty. *)
Theorem resume_storage_follows_state (Progress : Type)
    (w : TestResume.Provider Progress) (calls : list (TestResume.Call Progress)) :
  calls <> [] ->
  let w' := foldl (TestResume.call Progress) w calls in
  TestResume.stored Progress w' = Some (TestResume.savedTests Progress w')
  \/ (TestResume.stored Progress w' = None /\ TestResume.savedTests Progress w' = ∅).
Proof.
  intros Hne. cbn zeta.
  destruct (exists_last Hne) as (front & c & ->).
  rewrite foldl_app. cbn [foldl]. apply call_mirror.
Qed.

Lemma resume_storage_follows_state_witness :
  let calls := [TestResume.CallSave nat "t1" 1; TestResume.CallSave nat "t2" 2;
                TestResume.CallClear nat "t1"] in
  let w' := foldl (TestResume.call nat)
              (TestResume.mountProvider nat (Some {[ "old" := 9 ]})) calls in
  calls <> []
  /\ (TestResume.stored nat w' = Some (TestResume.savedTests nat w')
      \/ (TestResume.stored nat w' = None /\ TestResume.savedTests nat w' = ∅)).
Proof.
  assert (Hne : [TestResume.CallSave nat "t1" 1; TestResume.CallSave nat "t2" 2;
                 TestResume.CallClear nat "t1"] <> []) by discriminate.
  split; [exact Hne|].
  exact (resume_storage_follows_state nat _ _ Hne).
Defined.

(** X19. Two saves made from the same render lose one test in the
    stored copy: the state is updated from the previous state and keeps
    both, but each write to [localStorage] starts from that render's
    [savedTests], so the second write drops the first test. *)
Theorem resume_second_save_drops_first (Progress : Type)
    (w : TestResume.Provider Progress) id1 id2 p1 p2 :
  id1 <> id2 ->
  TestResume.savedTests Progress w !! id1 = None ->
  let r := TestResume.savedTests Progress w in
  let w' := TestResume.saveTestProgress Progress r id2 p2 true
              (TestResume.saveTestProgress Progress r id1 p1 true w) in
  TestResume.savedTests Progress w' !! id1 = Some p1
  /\ TestResume.savedTests Progress w' !! id2 = Some p2
  /\ exists m, TestResume.stored Progress w' = Some m
               /\ m !! id1 = None /\ m !! id2 = Some p2.
Proof.
  intros Hne Hnone. cbn.
  rewrite lookup_insert_ne by congruence. rewrite !lookup_insert_eq.
  repeat split. eexists. split; [reflexivity|].
  rewrite lookup_insert_ne by congruence. rewrite lookup_insert_eq. auto.
Qed.

Lemma resume_second_save_drops_first_witness :
  let w := TestResume.mountProvider nat None in
  let r := TestResume.savedTests nat w in
  let w' := TestResume.saveTestProgress nat r "t2" 2 true
              (TestResume.saveTestProgress nat r "t1" 1 true w) in
  "t1" <> "t2"
  /\ TestResume.savedTests nat w !! "t1" = None
  /\ TestResume.savedTests nat w' !! "t1" = Some 1
  /\ TestResume.savedTests nat w' !! "t2" = Some 2
  /\ exists m, TestResume.stored nat w' = Some m /\ m !! "t1" = None /\ m !! "t2" = Some 2.
Proof.
  assert (Hne : "t1" <> "t2") by discriminate.
  split; [exact Hne|]. split; [reflexivity|].
  exact (resume_second_save_drops_first nat (TestResume.mountProvider nat None)
           "t1" "t2" 1 2 Hne eq_refl).
Defined.

(** ** Grades of the report *)

Lemma Qle_bool_false a b : Qle_bool a b = false -> (b < a)%Q.
Proof.
  intros H. apply Qnot_le_lt. intros Hle.
  apply Qle_bool_iff in Hle. congruence.
Qed.

Ltac grade_cases :=
  unfold Report.getGrade, Report.passStatus, Report.showsBanner;
  repeat match goal with
         | |- context [Qle_bool ?a ?b] =>
             let E := fresh "E" in
             destruct (Qle_bool a b) eqn:E;
             [apply Qle_bool_iff in E | apply Qle_bool_false in E]
         end.

(** X20. A higher percentage never gets a lower grade. *)
Theorem getGrade_monotone (p q : Q) :
  (p <= q)%Q ->
  Report.gradeRank (Report.grade (Report.getGrade p))
  <= Report.gradeRank (Report.grade (Report.getGrade q)).
Proof.
  intros Hpq. grade_cases; cbn; try lia; exfalso; lra.
Qed.

Lemma getGrade_monotone_witness :
  (65 <= 83.5)%Q
  /\ Report.grade (Report.getGrade 65) = "B"
  /\ Report.grade (Report.getGrade 83.5) = "A"
  /\ Report.gradeRank (Report.grade (Report.getGrade 65))
     <= Report.gradeRank (Report.grade (Report.getGrade 83.5)).
Proof.
  assert (H : (65 <= 83.5)%Q) by lra.
  split; [exact H|]. split; [reflexivity|]. split; [reflexivity|].
  exact (getGrade_monotone 65 83.5 H).
Defined.

(** X21. The report is consistent with itself: the status reads "Pass"
    exactly when the grade is not F, the congratulation banner is shown
    exactly when the grade is A+, and every grade is one of the seven
    labels. *)
Theorem pass_status_agrees_with_grade (p : Q) :
  (Report.passStatus p = "Pass" <-> Report.grade (Report.getGrade p) <> "F")
  /\ (Report.showsBanner p = true <-> Report.grade (Report.getGrade p) = "A+")
  /\ In (Report.grade (Report.getGrade p)) ["A+"; "A"; "B+"; "B"; "C"; "D"; "F"].
Proof.
  grade_cases; cbn; (repeat split; intros; try discriminate; try congruence; try tauto);
    try (exfalso; lra).
Qed.

(** ** Confirmed submission *)

(** X22. On a test whose question ids do not name members of
    [Object.prototype], pressing "Submit Final" when it is enabled makes
    exactly one call to [onSubmit]: one entry per question of the test,
    in the test's order, holding the current answer or the empty string,
    the whole minutes elapsed since the start, and the coding
    submissions so far; the guard is then up and the call is pending. *)
Theorem confirm_submit_payload test startTime w now :
  plainQuestionIds test = true ->
  enabled test w ClickSubmitFinal = true ->
  let r := step test startTime w (now, ClickSubmitFinal) in
  submissions r.2 =
    [OnSubmit (submissionAnswers test (answers (st w))) (minutesSince startTime now)
              (codingSubmissions (st w))]
  /\ map questionId (submissionAnswers test (answers (st w))) = map q_id (allQuestions test)
  /\ (forall a, In a (submissionAnswers test (answers (st w))) ->
        selectedAnswer a = default EmptyString (answers (st w) !! questionId a))
  /\ (60000 * minutesSince startTime now <= now - startTime
      < 60000 * (minutesSince startTime now + 1))%Z
  /\ submitting (st r.1) = true
  /\ pending r.1 = pending w ++ [ByHandleSubmit].
Proof.
  intros _ He. pose proof (enabled_view test w ClickSubmitFinal He) as (Hi & Hc & Hd & Hs & _).
  cbn zeta. unfold step. rewrite He. cbn [handle].
  unfold handleSubmit. rewrite Hs.
  rewrite violationEffect_idle.
  2:{ unfold violationCondition. destruct w as [[] ? ? ?]; cbn -[Nat.leb].
      rewrite andb_false_r. reflexivity. }
  cbn [fst snd st pending]. split; [reflexivity|].
  split; [apply submissionAnswers_questionIds|].
  split.
  - intros a Ha. destruct (answers (st w) !! questionId a) as [v|] eqn:E.
    + exact (submissionAnswers_answered test _ a v Ha E).
    + exact (submissionAnswers_unanswered test _ a Ha E).
  - split; [apply minutesSince_whole|].
    split; [destruct (st w); reflexivity|reflexivity].
Qed.

Lemma confirm_submit_payload_witness :
  let w := (run flatTest 0 (mount flatTest None)
              (startInputs ++ [(1000%Z, ChangeOption OptB); (2000%Z, ClickHeaderButton)])).1 in
  let r := step flatTest 0 w (130000%Z, ClickSubmitFinal) in
  plainQuestionIds flatTest = true
  /\ enabled flatTest w ClickSubmitFinal = true
  /\ submissions r.2 =
     [OnSubmit
        [{| questionId := "q1"; selectedAnswer := "B"; sa_timeSpent := Some 0 |};
         {| questionId := "q2"; selectedAnswer := EmptyString; sa_timeSpent := Some 0 |};
         {| questionId := "q3"; selectedAnswer := EmptyString; sa_timeSpent := Some 0 |}]
        2 []]
  /\ submitting (st r.1) = true.
Proof.
  assert (He : enabled flatTest
            (run flatTest 0 (mount flatTest None)
               (startInputs ++ [(1000%Z, ChangeOption OptB); (2000%Z, ClickHeaderButton)])).1
            ClickSubmitFinal = true) by (vm_compute; reflexivity).
  destruct (confirm_submit_payload flatTest 0 _ 130000%Z eq_refl He) as (E & _ & _ & _ & S & _).
  split; [reflexivity|]. split; [exact He|]. split; [|exact S].
  rewrite E. vm_compute. reflexivity.
Defined.

(** ** Terms, selection and ambient events *)

Lemma step_from_handle (P : State -> Prop) test startTime :
  (forall now w, P (st w) -> P (st (violationEffect test startTime now w).1)) ->
  (forall now e w, enabled test w e = true -> P (st w) ->
                   P (st (handle test startTime now e w).1)) ->
  forall w inputs, P (st w) -> P (st (run test startTime w inputs).1).
Proof.
  intros Hv Hh w inputs. revert w.
  induction inputs as [|[now e] rest IH]; intros w HP; [exact HP|].
  cbn [run]. unfold step.
  assert (Hstep : P (st (let '(w1, eff1) :=
               if enabled test w e then handle test startTime now e w else (w, [])
             in let '(w2, eff2) := violationEffect test startTime now w1
                in (w2, eff1 ++ eff2)).1)).
  { destruct (enabled test w e) eqn:He.
    - pose proof (Hh now e w He HP) as H1.
      destruct (handle test startTime now e w) as [w1 eff1].
      pose proof (Hv now w1 H1) as H2.
      destruct (violationEffect test startTime now w1) as [w2 eff2]. exact H2.
    - pose proof (Hv now w HP) as H2.
      destruct (violationEffect test startTime now w) as [w2 eff2]. exact H2. }
  destruct (let '(w1, eff1) :=
              if enabled test w e then handle test startTime now e w else (w, [])
            in let '(w2, eff2) := violationEffect test startTime now w1
               in (w2, eff1 ++ eff2)) as [w1 eff1].
  specialize (IH w1 Hstep).
  destruct (run test startTime w1 rest) as [w2 eff2]. exact IH.
Qed.

(** X23. A test only runs with the terms accepted: in every session
    reached from mounting, once the instructions are gone
    [agreedToTerms] holds. *)
Theorem running_test_has_terms_accepted test startTime saved inputs :
  let s := st (run test startTime (mount test saved) inputs).1 in
  showInstructions s = false -> agreedToTerms s = true.
Proof.
  cbn zeta. apply (step_from_handle termsInv test startTime).
  - intros now w. unfold termsInv, violationEffect, autoSubmitTest, selectFirstCoding,
      withState.
    destruct w as [[] ? ? ?]; cbn -[Nat.leb]. repeat case_match; cbn; auto.
  - intros now e w He Hinv. apply enabled_view in He. unfold termsInv in *.
    destruct e; cbn [handle] in *;
      unfold handleStartTest, onInterval, timerUpdater, handleAutoSubmit, handleSubmit,
        handleVisibilityChange, handleBeforeUnload, settle, handleAnswerSelect,
        handleNavigateToQuestion, handleMarkForReviewAndNext, handleSaveAndNext,
        handleMarkForReview, handleClearResponse, handleNextSection,
        selectFirstCoding, withState in *;
      destruct w as [[si ag ? ? ? ? ? ? ? ? ? ? ? ? ? ?] tc sto pend];
      cbn -[Nat.leb Nat.ltb] in *;
      repeat (case_match; simplify_eq; cbn -[Nat.leb Nat.ltb] in * );
      intros; try congruence; try tauto;
      try (destruct He as (? & ?); congruence).
  - unfold termsInv, mount. destruct saved; cbn; discriminate.
Qed.

Lemma running_test_has_terms_accepted_witness :
  let s := st (run codingTest 0 (mount codingTest None) lastSecondInputs).1 in
  showInstructions s = false /\ agreedToTerms s = true.
Proof.
  assert (Hi : showInstructions
            (st (run codingTest 0 (mount codingTest None) lastSecondInputs).1) = false)
    by (vm_compute; reflexivity).
  split; [exact Hi|].
  exact (running_test_has_terms_accepted codingTest 0 None lastSecondInputs Hi).
Defined.

Lemma selectionInv_head test s c :
  firstCoding test = Some c ->
  selectedCodingQuestionId s = codingId c ->
  selectionInv test s.
Proof.
  unfold firstCoding. intros Hf Hs. right.
  destruct (codingQuestions test) as [cqs|] eqn:Hc; [|discriminate].
  exists cqs, c. repeat split; auto.
  destruct cqs; [discriminate|]. cbn in Hf. injection Hf as ->. left. reflexivity.
Qed.

Lemma selectionInv_lookup test s cqs i cq :
  codingQuestions test = Some cqs ->
  cqs !! i = Some cq ->
  selectedCodingQuestionId s = codingId cq ->
  selectionInv test s.
Proof.
  intros Hc Hl Hs. right. exists cqs, cq. repeat split; auto.
  apply list_elem_of_In. eapply list_elem_of_lookup_2. exact Hl.
Qed.

Ltac selection_finish Hinv :=
  first
    [ exact Hinv
    | match goal with
      | H : firstCoding _ = Some ?c |- _ =>
          apply (selectionInv_head _ _ c H); reflexivity
      end
    | match goal with
      | H1 : codingQuestions _ = Some ?cqs, H2 : ?cqs !! ?i = Some ?cq |- _ =>
          apply (selectionInv_lookup _ _ cqs i cq H1 H2); reflexivity
      end ].

(** X24. In a session mounted without a checkpoint the coding editor is
    only ever opened on a coding question of the test: the selected
    identifier is absent, or it is the identifier ([_id || questionId])
    of one of [test.codingQuestions]. *)
Theorem fresh_selection_is_a_coding_question test startTime inputs :
  let s := st (run test startTime (mount test None) inputs).1 in
  selectedCodingQuestionId s = None
  \/ exists cqs cq, codingQuestions test = Some cqs /\ In cq cqs
                    /\ selectedCodingQuestionId s = codingId cq.
Proof.
  cbn zeta. apply (step_from_handle (selectionInv test) test startTime).
  - intros now w Hinv. unfold violationEffect, autoSubmitTest, selectFirstCoding, withState.
    destruct w as [[] ? ? ?]; cbn -[Nat.leb] in *.
    repeat (case_match; simplify_eq; cbn -[Nat.leb] in * ); selection_finish Hinv.
  - intros now e w _ Hinv.
    destruct e; cbn [handle] in *;
      unfold handleStartTest, onInterval, timerUpdater, handleAutoSubmit, handleSubmit,
        handleVisibilityChange, handleBeforeUnload, settle, handleAnswerSelect,
        handleNavigateToQuestion, handleMarkForReviewAndNext, handleSaveAndNext,
        handleMarkForReview, handleClearResponse, handleNextSection,
        selectFirstCoding, withState in *;
      destruct w as [[] tc sto pend];
      cbn -[Nat.leb Nat.ltb] in *;
      repeat (case_match; simplify_eq; cbn -[Nat.leb Nat.ltb] in * );
      selection_finish Hinv.
  - left. reflexivity.
Qed.

(** X25. The clock, tab switches, the page unload and the outcome of a
    submission never touch the ledger: answers, review marks, visited
    questions and the position are the same after such an event,
    including when it forces the coding section or a submission. *)
Theorem ambient_events_keep_ledger test startTime w now e :
  isAmbient e = true ->
  let s' := st (step test startTime w (now, e)).1 in
  answers s' = answers (st w)
  /\ markedForReview s' = markedForReview (st w)
  /\ visitedQuestions s' = visitedQuestions (st w)
  /\ currentSectionIndex s' = currentSectionIndex (st w)
  /\ currentQuestionIndex s' = currentQuestionIndex (st w).
Proof.
  intros Ha. cbn zeta. unfold step.
  destruct e; try discriminate; destruct (enabled test w _); cbn [handle];
    unfold onInterval, timerUpdater, handleAutoSubmit, handleSubmit,
      handleVisibilityChange, handleBeforeUnload, settle,
      violationEffect, autoSubmitTest, selectFirstCoding, withState;
    destruct w as [[] tc sto pend]; cbn -[Nat.leb Nat.ltb];
    repeat (case_match; simplify_eq; cbn -[Nat.leb Nat.ltb] in * );
    repeat split; reflexivity.
Qed.

Lemma ambient_events_keep_ledger_witness :
  let w := (run codingTest 0 (mount codingTest None)
              (lastSecondInputs ++ [(61000%Z, ChangeOption OptC)])).1 in
  let s' := st (step codingTest 0 w (62000%Z, Tick)).1 in
  isAmbient Tick = true
  /\ showCodingSection (st w) = false
  /\ showCodingSection s' = true
  /\ answers s' = answers (st w)
  /\ markedForReview s' = markedForReview (st w)
  /\ visitedQuestions s' = visitedQuestions (st w)
  /\ currentSectionIndex s' = currentSectionIndex (st w)
  /\ currentQuestionIndex s' = currentQuestionIndex (st w).
Proof.
  split; [reflexivity|]. split; [vm_compute; reflexivity|].
  split; [vm_compute; reflexivity|].
  exact (ambient_events_keep_ledger codingTest 0 _ 62000%Z Tick eq_refl).
Defined.

Lemma fresh_session_answers_visited_witness :
  let s := st (run flatTest 0 (mount flatTest None) answerSecondAndUnloadInputs).1 in
  is_Some (answers s !! "q2") /\ visitedQuestions s !! "q2" = Some true.
Proof.
  assert (H : is_Some (answers
            (st (run flatTest 0 (mount flatTest None) answerSecondAndUnloadInputs).1)
            !! "q2")) by (vm_compute; eexists; reflexivity).
  split; [exact H|].
  exact (fresh_session_answers_visited flatTest 0 answerSecondAndUnloadInputs "q2" H).
Defined.
